(** * The announce-message bot of [bot.py]: a shallow embedding

    The bot offers one slash command.  The operator picks a channel in a
    select prompt, fills a two-field form, optionally picks roles to
    mention and presses "Send Message" or "Skip Role Mention"; the bot
    then posts an embed to the channel.

    Every handler of [bot.py] is a function below with the name it has in
    the source.  A handler receives the object it is a method of ([self]),
    the attribute bag [interaction.namespace] and the gateway client; it
    returns the updated object, the updated bag, the calls it made on the
    platform, in order, and whether it returned or raised. *)

From Stdlib Require Import ZArith Ascii String DecimalString DecimalPos DecimalZ.
From stdpp Require Import base option list strings gmap.

Local Open Scope Z_scope.

(** ** Python built-ins used by the handlers *)

(** [str(n)] on an [int]: the decimal numeral, with a leading [-] below zero. *)
Definition str (n : Z) : string := NilZero.string_of_int (Z.to_int n).

(** [int(s)] on a [str]: [None] stands for [ValueError].  The parser covers
    an optional [-] followed by decimal digits, which is every string the
    handlers pass to it (values of select options made with [str]); the
    paddings and separators Python also accepts do not occur there. *)
Definition int (s : string) : option Z := Z.of_int <$> NilZero.int_of_string s.

(** [sep.join(parts)]. *)
Definition join (sep : string) (parts : list string) : string :=
  String.concat sep parts.

(** [s.split(sep)] for a one-character separator: used to read the tokens of
    a rendered mention prefix back. *)
Fixpoint split_on (sep : ascii) (s : string) : list string :=
  match s with
  | EmptyString => [EmptyString]
  | String c rest =>
      if Ascii.eqb c sep then EmptyString :: split_on sep rest
      else match split_on sep rest with
           | [] => [String c EmptyString]
           | w :: ws => String c w :: ws
           end
  end.

(** ** Platform objects, as far as the handlers read them *)

Module Permissions.
Record t := { send_messages : bool }.
End Permissions.

Module Member.
Record t := { id : Z }.
End Member.

Module TextChannel.
Record t := {
  name : string;
  id : Z;
  permissions_for : Member.t -> Permissions.t
}.
(** [channel.mention] *)
Definition mention (channel : t) : string := "<#" +:+ str (id channel) +:+ ">".
End TextChannel.

(** What [client.get_channel] can return besides [None]: a text channel, or a
    channel of another kind (voice, category, thread, ...). *)
Inductive Channel :=
  | IsTextChannel (channel : TextChannel.t)
  | IsOtherChannel (id : Z).

Module Role.
Record t := { name : string; id : Z }.
End Role.

(** [discord.Object(id=...)] *)
Module Object.
Record t := { id : Z }.
End Object.

Module Guild.
Record t := {
  me : Member.t;
  text_channels : list TextChannel.t;
  roles : list Role.t
}.
End Guild.

Module Interaction.
Record t := { guild : option Guild.t }.
End Interaction.

(** A value stored in [interaction.namespace]. *)
Inductive Value :=
  | VStr (s : string)
  | VInt (n : Z).

(** [interaction.namespace]: an attribute bag, empty when the command creates
    it (line 181).  The handlers' comments (lines 26-32, 146, 155, 180) use it
    to hand the channel, the title and the body from one handler of a flow
    to the next, so a flow has one bag and every handler of the flow reaches
    it through its [interaction].  [hasattr(ns, k)] is [is_Some (ns !! k)];
    reading an absent attribute raises [AttributeError]. *)
Abbreviation Namespace := (gmap string Value).

Module Embed.
Record t := { title : Value; description : Value; color : Z }.
End Embed.

(** [discord.Color.blue()] *)
Definition Color_blue : Z := 0x3498db.

Module SelectOption.
Record t := { label : string; value : string }.
End SelectOption.

(** [ui.Select]: [values] holds what the user picked in the interaction being
    handled. *)
Module Select.
Record t := {
  placeholder : string;
  options : list SelectOption.t;
  min_values : nat;
  max_values : nat;
  row : option nat;
  values : list string
}.
Definition set_values (vs : list string) (s : t) : t :=
  {| placeholder := placeholder s; options := options s;
     min_values := min_values s; max_values := max_values s;
     row := row s; values := vs |}.
End Select.

Inductive TextStyle := short | paragraph.

Module TextInput.
Record t := { label : string; style : TextStyle; required : bool; value : string }.
Definition set_value (v : string) (i : t) : t :=
  {| label := label i; style := style i; required := required i; value := v |}.
End TextInput.

Inductive ButtonStyle := green | grey.

Module Button.
Record t := { label : string; style : ButtonStyle; row : option nat }.
End Button.

(** Exceptions a handler can raise by itself. *)
Inductive Exception := ValueError | IndexError | AttributeError.

(** How [channel.send] can fail: [discord.Forbidden], or any other exception,
    of which the handler shows [str(e)]. *)
Inductive SendError :=
  | Forbidden
  | OtherError (text : string).

(** ** The three prompts *)

(** [MessageModal] (lines 21-33).  The class passes [title] only, and the
    handler builds it as [MessageModal()], so [timeout] is the one [ui.Modal]
    gives when none is passed: [None]. *)
Module MessageModal.
Record t := {
  title : string;
  timeout : option nat;
  msg_title : TextInput.t;
  body : TextInput.t
}.
Definition __init__ : t :=
  {| title := "Message Content";
     timeout := None;
     msg_title := {| TextInput.label := "Title"; TextInput.style := short;
                     TextInput.required := true; TextInput.value := "" |};
     body := {| TextInput.label := "Body"; TextInput.style := paragraph;
                TextInput.required := true; TextInput.value := "" |} |}.
(** The platform fills both fields in before [on_submit] runs. *)
Definition fill (t_value b_value : string) (m : t) : t :=
  {| title := title m; timeout := timeout m;
     msg_title := TextInput.set_value t_value (msg_title m);
     body := TextInput.set_value b_value (body m) |}.
End MessageModal.

(** [RoleSelectView] (lines 36-69).  [stopped] is the state [self.stop()]
    sets. *)
Module RoleSelectView.
Record t := {
  timeout : option nat;
  original_interaction : Interaction.t;
  selected_channel_id : option Z;
  selected_roles : list Object.t;
  role_select : Select.t;
  send_button : Button.t;
  skip_button : Button.t;
  stopped : bool
}.

Definition no_roles_option : SelectOption.t :=
  {| SelectOption.label := "No roles available"; SelectOption.value := "no_roles" |}.

Definition __init__ (guild_roles : list Role.t) (original_interaction : Interaction.t)
    (selected_channel_id : option Z) : t :=
  let role_options : list SelectOption.t :=
    (fun role => {| SelectOption.label := Role.name role;
                    SelectOption.value := str (Role.id role) |})
      <$> filter (fun role => Role.name role <> "@everyone") guild_roles in
  let role_options :=
    match role_options with
    | [] => role_options ++ [no_roles_option]
    | _ :: _ => role_options
    end in
  {| timeout := Some 180%nat;
     original_interaction := original_interaction;
     selected_channel_id := selected_channel_id;
     selected_roles := [];
     role_select :=
       {| Select.placeholder := "Select roles to mention (optional)";
          Select.options := role_options;
          Select.min_values := 1;
          Select.max_values :=
            match role_options with
            | first :: _ =>
                if decide (SelectOption.value first <> "no_roles")
                then length role_options else 1%nat
            | [] => 0%nat (* not reached: [role_options] is not empty here *)
            end;
          Select.row := Some 0%nat;
          Select.values := [] |};
     send_button := {| Button.label := "Send Message"; Button.style := green;
                       Button.row := Some 1%nat |};
     skip_button := {| Button.label := "Skip Role Mention"; Button.style := grey;
                       Button.row := Some 1%nat |};
     stopped := false |}.

Definition set_selected_roles (rs : list Object.t) (v : t) : t :=
  {| timeout := timeout v; original_interaction := original_interaction v;
     selected_channel_id := selected_channel_id v; selected_roles := rs;
     role_select := role_select v; send_button := send_button v;
     skip_button := skip_button v; stopped := stopped v |}.

Definition set_values (vs : list string) (v : t) : t :=
  {| timeout := timeout v; original_interaction := original_interaction v;
     selected_channel_id := selected_channel_id v;
     selected_roles := selected_roles v;
     role_select := Select.set_values vs (role_select v);
     send_button := send_button v; skip_button := skip_button v;
     stopped := stopped v |}.

(** [self.stop()] *)
Definition stop (v : t) : t :=
  {| timeout := timeout v; original_interaction := original_interaction v;
     selected_channel_id := selected_channel_id v;
     selected_roles := selected_roles v; role_select := role_select v;
     send_button := send_button v; skip_button := skip_button v;
     stopped := true |}.
End RoleSelectView.

(** [ChannelSelectView] (lines 117-137). *)
Module ChannelSelectView.
Record t := {
  timeout : option nat;
  original_interaction : Interaction.t;
  selected_channel_id : option Z;
  channel_select : Select.t;
  stopped : bool
}.

Definition no_channels_option : SelectOption.t :=
  {| SelectOption.label := "No text channels found";
     SelectOption.value := "no_channels" |}.

Definition __init__ (text_channels : list TextChannel.t)
    (original_interaction : Interaction.t) : t :=
  let options : list SelectOption.t :=
    (fun channel => {| SelectOption.label := "#" +:+ TextChannel.name channel;
                       SelectOption.value := str (TextChannel.id channel) |})
      <$> text_channels in
  let options :=
    match options with
    | [] => options ++ [no_channels_option]
    | _ :: _ => options
    end in
  {| timeout := Some 180%nat;
     original_interaction := original_interaction;
     selected_channel_id := None;
     channel_select :=
       {| Select.placeholder := "Select a channel";
          Select.options := options;
          Select.min_values := 1;
          Select.max_values := 1;
          Select.row := None;
          Select.values := [] |};
     stopped := false |}.

Definition set_selected_channel_id (c : Z) (v : t) : t :=
  {| timeout := timeout v; original_interaction := original_interaction v;
     selected_channel_id := Some c; channel_select := channel_select v;
     stopped := stopped v |}.

Definition set_values (vs : list string) (v : t) : t :=
  {| timeout := timeout v; original_interaction := original_interaction v;
     selected_channel_id := selected_channel_id v;
     channel_select := Select.set_values vs (channel_select v);
     stopped := stopped v |}.

(** [self.stop()] *)
Definition stop (v : t) : t :=
  {| timeout := timeout v; original_interaction := original_interaction v;
     selected_channel_id := selected_channel_id v;
     channel_select := channel_select v; stopped := true |}.
End ChannelSelectView.

Inductive View :=
  | AChannelSelectView (v : ChannelSelectView.t)
  | ARoleSelectView (v : RoleSelectView.t).

(** ** Calls on the platform *)

(** What a handler asks of the platform, in the order it asks.  [channel_send]
    carries how the platform answered: [None] when the message was
    delivered. *)
Inductive Call :=
  | response_send_message (content : string) (view : option View) (ephemeral : bool)
  | response_send_modal (modal : MessageModal.t)
  | response_defer
  | followup_send (content : string) (view : option View) (ephemeral : bool)
  | channel_send (channel : TextChannel.t) (content : option string)
      (embed : Embed.t) (failure : option SendError).

(** The gateway client, [client] in the source, and the library behind it:
    - [get_channel] is [client.get_channel], applied to an identifier or to
      Python's [None];
    - [send] is how the platform answers [channel.send(content, embed)];
    - [Object_mention] is the attribute [mention] that line 79 reads on a
      [discord.Object]: [None] when the object has no such attribute
      ([AttributeError]), which is the case of [discord.Object] itself. *)
Record Client := {
  get_channel : option Z -> option Channel;
  send : TextChannel.t -> option string -> Embed.t -> option SendError;
  Object_mention : Object.t -> option string
}.

(** ** The handlers *)

(** How a handler ends: it returns, or an exception leaves it.  What the
    handler changed and sent before the exception stays changed and sent. *)
Inductive Completion :=
  | Returned
  | Raised (e : Exception).

(** [MessageModal.on_submit] (lines 25-33). *)
Definition on_submit (self : MessageModal.t) (namespace : Namespace)
    : Namespace * list Call :=
  let namespace :=
    <["msg_title" := VStr (TextInput.value (MessageModal.msg_title self))]> namespace in
  let namespace :=
    <["body" := VStr (TextInput.value (MessageModal.body self))]> namespace in
  (namespace, [response_defer]).

(** [RoleSelectView.role_select_callback] (lines 72-79). *)
Definition role_select_callback (client : Client) (self : RoleSelectView.t)
    : RoleSelectView.t * list Call * Completion :=
  let values := Select.values (RoleSelectView.role_select self) in
  if decide ("no_roles" ∈ values) then
    let self := RoleSelectView.set_selected_roles [] self in
    (self, [response_send_message "No roles selected or available." None true], Returned)
  else
    match mapM int values with
    | None => (self, [], Raised ValueError)
    | Some ids =>
        let self := RoleSelectView.set_selected_roles (Object.Build_t <$> ids) self in
        match RoleSelectView.selected_roles self with
        | [] =>
            (self, [response_send_message ("Selected roles: " +:+ "None") None true],
             Returned)
        | _ :: _ =>
            match mapM (Object_mention client) (RoleSelectView.selected_roles self) with
            | None => (self, [], Raised AttributeError)
            | Some mentions =>
                (self,
                 [response_send_message ("Selected roles: " +:+ join ", " mentions)
                    None true],
                 Returned)
            end
        end
    end.

(** [RoleSelectView.send_message_action] (lines 89-114). *)
Definition send_message_action (client : Client) (self : RoleSelectView.t)
    (namespace : Namespace) (roles_to_mention : list Object.t)
    : RoleSelectView.t * list Call * Completion :=
  match namespace !! "msg_title" with
  | None => (self, [], Raised AttributeError)
  | Some msg_title =>
  match namespace !! "body" with
  | None => (self, [], Raised AttributeError)
  | Some body =>
      let selected_channel_id := RoleSelectView.selected_channel_id self in
      match get_channel client selected_channel_id with
      | Some (IsTextChannel channel) =>
          let embed :=
            {| Embed.title := msg_title; Embed.description := body;
               Embed.color := Color_blue |} in
          let role_mentions_str :=
            match roles_to_mention with
            | [] => ""
            | _ :: _ =>
                join " " ((fun role => "<@&" +:+ str (Object.id role) +:+ ">")
                            <$> roles_to_mention)
            end in
          let content :=
            if decide (role_mentions_str = "") then None else Some role_mentions_str in
          let failure := send client channel content embed in
          let reply :=
            match failure with
            | None => "Message sent to " +:+ TextChannel.mention channel +:+ "!"
            | Some Forbidden =>
                "Error: I don't have permission to send messages to that channel."
            | Some (OtherError e) => "An unexpected error occurred: " +:+ e
            end in
          (RoleSelectView.stop self,
           [channel_send channel content embed failure;
            response_send_message reply None true],
           Returned)
      | _ =>
          (self,
           [response_send_message "Error: Could not find the selected channel." None true],
           Returned)
      end
  end
  end.

(** [RoleSelectView.send_button_callback] (lines 82-83). *)
Definition send_button_callback (client : Client) (self : RoleSelectView.t)
    (namespace : Namespace) : RoleSelectView.t * list Call * Completion :=
  send_message_action client self namespace (RoleSelectView.selected_roles self).

(** [RoleSelectView.skip_button_callback] (lines 85-86). *)
Definition skip_button_callback (client : Client) (self : RoleSelectView.t)
    (namespace : Namespace) : RoleSelectView.t * list Call * Completion :=
  send_message_action client self namespace [].

(** Where [channel_select_callback] stands when it gives control back: it is
    over, or it waits in [await message_modal.wait()] (line 152). *)
Inductive Suspension :=
  | Over (c : Completion)
  | Waiting (message_modal : MessageModal.t).

(** [ChannelSelectView.channel_select_callback], lines 139-152: up to the
    wait for the modal. *)
Definition channel_select_callback (self : ChannelSelectView.t) (namespace : Namespace)
    : ChannelSelectView.t * Namespace * list Call * Suspension :=
  match Select.values (ChannelSelectView.channel_select self) with
  | [] => (self, namespace, [], Over (Raised IndexError))
  | first :: _ =>
      if decide (first = "no_channels") then
        (ChannelSelectView.stop self, namespace,
         [response_send_message "No text channels available to send a message to."
            None true],
         Over Returned)
      else
        match int first with
        | None => (self, namespace, [], Over (Raised ValueError))
        | Some id =>
            let self := ChannelSelectView.set_selected_channel_id id self in
            let namespace := <["selected_channel_id" := VInt id]> namespace in
            let message_modal := MessageModal.__init__ in
            (self, namespace, [response_send_modal message_modal], Waiting message_modal)
        end
  end.

(** [ChannelSelectView.channel_select_callback], lines 154-166: from the
    return of [message_modal.wait()] on.  [interaction] is the interaction of
    the selection. *)
Definition channel_select_callback_resumed (self : ChannelSelectView.t)
    (interaction : Interaction.t) (namespace : Namespace)
    : ChannelSelectView.t * option RoleSelectView.t * list Call * Completion :=
  if decide (is_Some (namespace !! "msg_title") /\ is_Some (namespace !! "body")) then
    match Interaction.guild interaction with
    | None => (self, None, [], Raised AttributeError)
    | Some guild =>
        let guild_roles := Guild.roles guild in
        let role_view :=
          RoleSelectView.__init__ guild_roles
            (ChannelSelectView.original_interaction self)
            (ChannelSelectView.selected_channel_id self) in
        (ChannelSelectView.stop self, Some role_view,
         [followup_send "Please select roles to mention (optional):"
            (Some (ARoleSelectView role_view)) true],
         Returned)
    end
  else
    (ChannelSelectView.stop self, None,
     [followup_send "Failed to get message content from modal." None true],
     Returned).

(** ** A flow: one run of the command *)

(** The objects one invocation creates, and [log], every call the flow made on
    the platform so far, oldest first.  [message_modal] is the modal the
    suspended [channel_select_callback] waits for, if any: the platform shows
    a user one modal at a time, so a modal opened by a later selection takes
    the place of the one before. *)
Record Flow := {
  namespace : Namespace;
  channel_view : ChannelSelectView.t;
  message_modal : option MessageModal.t;
  role_view : option RoleSelectView.t;
  log : list Call
}.

(** [send_message_command] (lines 168-184): the calls made, how the command
    ends and, when it gets that far, the flow it leaves behind.

    [utils_Namespace] is what line 181 gets from the library:
    [discord.utils.Namespace()], assigned to [interaction.namespace].  [None]
    is the library as it is: [discord.utils] has no [Namespace] and the
    attribute [namespace] of an interaction cannot be assigned, so the
    statement raises [AttributeError] and lines 183-184 are not reached.
    [Some ns] is the statement doing what the comment at line 180 expects of
    it, leaving [ns] as the bag of the flow. *)
Definition send_message_command (utils_Namespace : option Namespace)
    (interaction : Interaction.t) : list Call * Completion * option Flow :=
  match Interaction.guild interaction with
  | None =>
      ([response_send_message "This command can only be used in a server." None true],
       Returned, None)
  | Some guild =>
      let text_channels :=
        filter (fun ch =>
                  Permissions.send_messages
                    (TextChannel.permissions_for ch (Guild.me guild)) = true)
               (Guild.text_channels guild) in
      match text_channels with
      | [] =>
          ([response_send_message
              "I don't have permission to send messages in any channel, or no text channels exist."
              None true],
           Returned, None)
      | _ :: _ =>
          match utils_Namespace with
          | None => ([], Raised AttributeError, None)
          | Some namespace =>
              let view := ChannelSelectView.__init__ text_channels interaction in
              let calls :=
                [response_send_message "Please select a channel to send the message to:"
                   (Some (AChannelSelectView view)) true] in
              (calls, Returned,
               Some {| namespace := namespace; channel_view := view;
                       message_modal := None; role_view := None; log := calls |})
          end
      end
  end.

(** What reaches a flow from the platform afterwards. *)
Inductive Event :=
  | channel_selected (values : list string)
  | modal_submitted (msg_title body : string)
  | roles_selected (values : list string)
  | send_pressed
  | skip_pressed.

(** The platform lets a user pick, in a select, between [min_values] and
    [max_values] distinct values among those of its options. *)
Definition submittable (select : Select.t) (values : list string) : Prop :=
  NoDup values
  /\ (Select.min_values select <= length values <= Select.max_values select)%nat
  /\ values ⊆ (SelectOption.value <$> Select.options select).

(** The platform submits a form once every required field holds text. *)
Definition fillable (input : TextInput.t) (v : string) : Prop :=
  TextInput.required input = true -> v <> "".

(** The library routes an event to the handler of a live object: a view
    before [stop()], the modal being waited for.  Any other event reaches no
    handler of the flow.

    [step] describes a flow on the platform as the source expects it: the
    handlers of a flow share one namespace; the platform submits a selection
    only when it is [submittable] and a form only when it is [fillable], and
    [step] leaves the flow as it is otherwise (the handlers themselves check
    neither: see [handle]); a handler runs to its end, or to its wait for the
    form, before the next event is routed. *)
Definition step (client : Client) (fl : Flow) (ev : Event) : Flow :=
  match ev with
  | channel_selected values =>
      let view := channel_view fl in
      if ChannelSelectView.stopped view then fl
      else if decide (submittable (ChannelSelectView.channel_select view) values) then
        let '(self, ns, calls, s) :=
          channel_select_callback (ChannelSelectView.set_values values view)
            (namespace fl) in
        {| namespace := ns; channel_view := self;
           message_modal :=
             match s with Waiting m => Some m | Over _ => message_modal fl end;
           role_view := role_view fl; log := log fl ++ calls |}
      else fl
  | modal_submitted msg_title body =>
      match message_modal fl with
      | None => fl
      | Some m =>
          if decide (fillable (MessageModal.msg_title m) msg_title
                     /\ fillable (MessageModal.body m) body) then
            let '(ns, calls1) :=
              on_submit (MessageModal.fill msg_title body m) (namespace fl) in
            let view := channel_view fl in
            let '(self, created, calls2, _) :=
              channel_select_callback_resumed view
                (ChannelSelectView.original_interaction view) ns in
            {| namespace := ns; channel_view := self; message_modal := None;
               role_view :=
                 match created with Some v => Some v | None => role_view fl end;
               log := log fl ++ calls1 ++ calls2 |}
          else fl
      end
  | roles_selected values =>
      match role_view fl with
      | None => fl
      | Some view =>
          if RoleSelectView.stopped view then fl
          else if decide (submittable (RoleSelectView.role_select view) values) then
            let '(self, calls, _) :=
              role_select_callback client (RoleSelectView.set_values values view) in
            {| namespace := namespace fl; channel_view := channel_view fl;
               message_modal := message_modal fl; role_view := Some self;
               log := log fl ++ calls |}
          else fl
      end
  | send_pressed =>
      match role_view fl with
      | None => fl
      | Some view =>
          if RoleSelectView.stopped view then fl
          else
            let '(self, calls, _) := send_button_callback client view (namespace fl) in
            {| namespace := namespace fl; channel_view := channel_view fl;
               message_modal := message_modal fl; role_view := Some self;
               log := log fl ++ calls |}
      end
  | skip_pressed =>
      match role_view fl with
      | None => fl
      | Some view =>
          if RoleSelectView.stopped view then fl
          else
            let '(self, calls, _) := skip_button_callback client view (namespace fl) in
            {| namespace := namespace fl; channel_view := channel_view fl;
               message_modal := message_modal fl; role_view := Some self;
               log := log fl ++ calls |}
      end
  end.

(** The flow after a sequence of events. *)
Definition run (client : Client) (fl : Flow) (events : list Event) : Flow :=
  foldl (step client) fl events.

(** [step] without the platform's checks: the handler gets the values of the
    event as they come, as lines 73-78, 140-145 and 31-32 take them. *)
Definition handle (client : Client) (fl : Flow) (ev : Event) : Flow :=
  match ev with
  | channel_selected values =>
      let view := channel_view fl in
      if ChannelSelectView.stopped view then fl
      else
        let '(self, ns, calls, s) :=
          channel_select_callback (ChannelSelectView.set_values values view)
            (namespace fl) in
        {| namespace := ns; channel_view := self;
           message_modal :=
             match s with Waiting m => Some m | Over _ => message_modal fl end;
           role_view := role_view fl; log := log fl ++ calls |}
  | modal_submitted msg_title body =>
      match message_modal fl with
      | None => fl
      | Some m =>
          let '(ns, calls1) :=
            on_submit (MessageModal.fill msg_title body m) (namespace fl) in
          let view := channel_view fl in
          let '(self, created, calls2, _) :=
            channel_select_callback_resumed view
              (ChannelSelectView.original_interaction view) ns in
          {| namespace := ns; channel_view := self; message_modal := None;
             role_view :=
               match created with Some v => Some v | None => role_view fl end;
             log := log fl ++ calls1 ++ calls2 |}
      end
  | roles_selected values =>
      match role_view fl with
      | None => fl
      | Some view =>
          if RoleSelectView.stopped view then fl
          else
            let '(self, calls, _) :=
              role_select_callback client (RoleSelectView.set_values values view) in
            {| namespace := namespace fl; channel_view := channel_view fl;
               message_modal := message_modal fl; role_view := Some self;
               log := log fl ++ calls |}
      end
  | send_pressed | skip_pressed => step client fl ev
  end.

(** The platform lets the event through: the values of a selection are
    [submittable] in the select they come from, the fields of a form are
    [fillable]. *)
Definition let_through (fl : Flow) (ev : Event) : Prop :=
  match ev with
  | channel_selected values =>
      submittable (ChannelSelectView.channel_select (channel_view fl)) values
  | modal_submitted msg_title body =>
      forall m, message_modal fl = Some m ->
        fillable (MessageModal.msg_title m) msg_title
        /\ fillable (MessageModal.body m) body
  | roles_selected values =>
      forall view, role_view fl = Some view ->
        submittable (RoleSelectView.role_select view) values
  | send_pressed | skip_pressed => True
  end.

(** The platform lets every event of the sequence through, each in the flow
    the events before it left. *)
Fixpoint all_let_through (client : Client) (fl : Flow) (events : list Event) : Prop :=
  match events with
  | [] => True
  | ev :: events => let_through fl ev /\ all_let_through client (handle client fl ev) events
  end.

(** ** The stage of a flow *)

Inductive Stage := AwaitingChannel | AwaitingForm | AwaitingRoles | Completed | Aborted.

(** Whether a call is a delivery the platform accepted. *)
Definition is_delivery (c : Call) : bool :=
  match c with
  | channel_send _ _ _ None => true
  | _ => false
  end.

(** The source keeps no stage field.  The stage is read off the objects of
    the flow: the channel prompt is live and nothing is chosen yet; the
    handler waits for the form; the role prompt is live; the role prompt is
    stopped, after a delivery or after a failed one.  A flow whose channel
    prompt is stopped with no form and no role prompt is over as well. *)
Definition stage (fl : Flow) : Stage :=
  match role_view fl with
  | Some view =>
      if RoleSelectView.stopped view
      then (if existsb is_delivery (log fl) then Completed else Aborted)
      else AwaitingRoles
  | None =>
      match message_modal fl with
      | Some _ => AwaitingForm
      | None =>
          if ChannelSelectView.stopped (channel_view fl) then Aborted
          else AwaitingChannel
      end
  end.

(** The stage an event belongs to: the prompt it comes from. *)
Definition event_stage (ev : Event) : Stage :=
  match ev with
  | channel_selected _ => AwaitingChannel
  | modal_submitted _ _ => AwaitingForm
  | roles_selected _ | send_pressed | skip_pressed => AwaitingRoles
  end.

(** One move of the spec's state machine. *)
Inductive next_stage : Stage -> Stage -> Prop :=
  | channel_to_form : next_stage AwaitingChannel AwaitingForm
  | form_to_roles : next_stage AwaitingForm AwaitingRoles
  | roles_to_completed : next_stage AwaitingRoles Completed
  | roles_to_aborted : next_stage AwaitingRoles Aborted.

Definition terminal (s : Stage) : Prop := s = Completed \/ s = Aborted.

(** A flow the command has just created, when line 181 leaves it an empty
    namespace: the flow lines 183-184 build. *)
Definition started (fl : Flow) : Prop :=
  exists interaction calls,
    send_message_command (Some ∅) interaction = (calls, Returned, Some fl).

(** A flow the command created, after any sequence of events. *)
Definition reachable (client : Client) (fl : Flow) : Prop :=
  exists fl0 events, started fl0 /\ fl = run client fl0 events.

(** ** Idle windows *)

(** The prompt a flow waits on, and the idle window it was built with. *)
Inductive Prompt :=
  | channel_prompt (view : ChannelSelectView.t)
  | form_prompt (modal : MessageModal.t)
  | role_prompt (view : RoleSelectView.t).

Definition idle_window (p : Prompt) : option nat :=
  match p with
  | channel_prompt view => ChannelSelectView.timeout view
  | form_prompt modal => MessageModal.timeout modal
  | role_prompt view => RoleSelectView.timeout view
  end.

Definition pending_prompt (fl : Flow) : option Prompt :=
  match role_view fl with
  | Some view =>
      if RoleSelectView.stopped view then None else Some (role_prompt view)
  | None =>
      match message_modal fl with
      | Some modal => Some (form_prompt modal)
      | None =>
          if ChannelSelectView.stopped (channel_view fl) then None
          else Some (channel_prompt (channel_view fl))
      end
  end.

(** ** Text *)

(** Whether [c] occurs in [s]. *)
Fixpoint has_char (c : ascii) (s : string) : bool :=
  match s with
  | EmptyString => false
  | String c' rest => Ascii.eqb c' c || has_char c rest
  end.

(** Python's whitespace, as [str.strip()] removes it. *)
Definition is_space (c : ascii) : bool :=
  (Ascii.eqb c " " || Ascii.eqb c "009" || Ascii.eqb c "010" || Ascii.eqb c "011"
   || Ascii.eqb c "012" || Ascii.eqb c "013")%char.

(** [s.strip() == ""]: nothing is left of [s] once whitespace is trimmed. *)
Fixpoint blank (s : string) : bool :=
  match s with
  | EmptyString => true
  | String c rest => is_space c && blank rest
  end.

(** The mention token of a role (line 104). *)
Definition role_mention (role : Object.t) : string :=
  "<@&" +:+ str (Object.id role) +:+ ">".

(** ** The scenario of the spec

    A guild with the channels "general" and "logs" and the role "mods". *)
Module Scenario.
Definition bot : Member.t := {| Member.id := 900 |}.
Definition may_send (_ : Member.t) : Permissions.t :=
  {| Permissions.send_messages := true |}.
Definition general : TextChannel.t :=
  {| TextChannel.name := "general"; TextChannel.id := 1;
     TextChannel.permissions_for := may_send |}.
Definition logs : TextChannel.t :=
  {| TextChannel.name := "logs"; TextChannel.id := 2;
     TextChannel.permissions_for := may_send |}.
Definition everyone : Role.t := {| Role.name := "@everyone"; Role.id := 10 |}.
Definition mods : Role.t := {| Role.name := "mods"; Role.id := 11 |}.
Definition guild : Guild.t :=
  {| Guild.me := bot; Guild.text_channels := [general; logs];
     Guild.roles := [everyone; mods] |}.
(** The same guild with no role besides the implicit one. *)
Definition bare_guild : Guild.t :=
  {| Guild.me := bot; Guild.text_channels := [general; logs];
     Guild.roles := [everyone] |}.
Definition invocation (g : Guild.t) : Interaction.t :=
  {| Interaction.guild := Some g |}.
(** A client that finds both channels; [answer] is how the platform answers
    a send.  A [discord.Object] has no [mention]. *)
Definition client (answer : option SendError) : Client :=
  {| get_channel := fun id =>
       match id with
       | Some 1 => Some (IsTextChannel general)
       | Some 2 => Some (IsTextChannel logs)
       | _ => None
       end;
     send := fun _ _ _ => answer;
     Object_mention := fun _ => None |}.
(** A client that no longer finds any channel. *)
Definition client_without_channels : Client :=
  {| get_channel := fun _ => None;
     send := fun _ _ _ => None;
     Object_mention := fun _ => None |}.
(** The flow the command leaves in guild [g]. *)
Definition flow (g : Guild.t) : Flow :=
  let view := ChannelSelectView.__init__ [general; logs] (invocation g) in
  {| namespace := ∅; channel_view := view; message_modal := None;
     role_view := None;
     log := [response_send_message "Please select a channel to send the message to:"
               (Some (AChannelSelectView view)) true] |}.
Definition awaiting_form (g : Guild.t) : Flow :=
  run (client None) (flow g) [channel_selected ["1"]].
Definition awaiting_roles (g : Guild.t) : Flow :=
  run (client None) (flow g)
    [channel_selected ["1"];
     modal_submitted "Maintenance" "Service restarts at 5pm"].
End Scenario.

(** ** What holds of every flow the command created *)

Definition numeric (o : SelectOption.t) : Prop := is_Some (int (SelectOption.value o)).

Definition Inv (fl : Flow) : Prop :=
  let cv := channel_view fl in
  is_Some (Interaction.guild (ChannelSelectView.original_interaction cv))
  /\ ChannelSelectView.timeout cv = Some 180%nat
  /\ Select.min_values (ChannelSelectView.channel_select cv) = 1%nat
  /\ Select.max_values (ChannelSelectView.channel_select cv) = 1%nat
  /\ Forall numeric (Select.options (ChannelSelectView.channel_select cv))
  /\ match role_view fl with
     | None =>
         ChannelSelectView.stopped cv = false
         /\ existsb is_delivery (log fl) = false
         /\ (message_modal fl = None \/ message_modal fl = Some MessageModal.__init__)
     | Some view =>
         ChannelSelectView.stopped cv = true
         /\ message_modal fl = None
         /\ is_Some (namespace fl !! "msg_title")
         /\ is_Some (namespace fl !! "body")
         /\ RoleSelectView.timeout view = Some 180%nat
         /\ (RoleSelectView.stopped view = false -> existsb is_delivery (log fl) = false)
     end.

(** ** What a flow offers and what it sends *)

(** The channels the command keeps (line 174). *)
Definition eligible_channels (g : Guild.t) : list TextChannel.t :=
  filter (fun ch =>
            Permissions.send_messages
              (TextChannel.permissions_for ch (Guild.me g)) = true)
         (Guild.text_channels g).

(** The option the channel select shows for a channel (line 124). *)
Definition channel_option (channel : TextChannel.t) : SelectOption.t :=
  {| SelectOption.label := "#" +:+ TextChannel.name channel;
     SelectOption.value := str (TextChannel.id channel) |}.

(** The roles the role select lists (line 46), and the option shown for one
    (line 45). *)
Definition listed_roles (g : Guild.t) : list Role.t :=
  filter (fun role => Role.name role <> "@everyone") (Guild.roles g).

Definition role_option (role : Role.t) : SelectOption.t :=
  {| SelectOption.label := Role.name role; SelectOption.value := str (Role.id role) |}.

(** The content [send_message_action] passes to [channel.send] for the roles it
    is given (lines 102-107). *)
Definition mention_prefix (roles : list Object.t) : option string :=
  match roles with
  | [] => None
  | _ :: _ => Some (join " " (role_mention <$> roles))
  end.

(** A reply or follow-up is private when only the invoking user sees it. *)
Definition private (c : Call) : Prop :=
  match c with
  | response_send_message _ _ ephemeral | followup_send _ _ ephemeral => ephemeral = true
  | _ => True
  end.

(** A send goes to a channel the client finds under the identifier of a channel
    the command offered. *)
Definition sent_to_offered (client : Client) (g : Guild.t) (c : Call) : Prop :=
  match c with
  | channel_send channel _ _ _ =>
      exists ch,
        ch ∈ eligible_channels g
        /\ get_channel client (Some (TextChannel.id ch)) = Some (IsTextChannel channel)
  | _ => True
  end.

(** The content of a send is the mention prefix of roles the role select
    listed. *)
Definition mentions_listed (g : Guild.t) (c : Call) : Prop :=
  match c with
  | channel_send _ content _ _ =>
      exists roles,
        content = mention_prefix roles
        /\ forall r, r ∈ roles ->
             exists role, role ∈ listed_roles g /\ Role.id role = Object.id r
  | _ => True
  end.

(** What a flow created in guild [g] keeps track of, besides [Inv]. *)
Record Tracks (client : Client) (g : Guild.t) (fl : Flow) : Prop := {
  tr_guild :
    Interaction.guild (ChannelSelectView.original_interaction (channel_view fl)) = Some g;
  tr_options :
    Select.options (ChannelSelectView.channel_select (channel_view fl))
    = channel_option <$> eligible_channels g;
  tr_picked :
    forall id, ChannelSelectView.selected_channel_id (channel_view fl) = Some id ->
      exists ch, ch ∈ eligible_channels g /\ TextChannel.id ch = id;
  tr_selected :
    is_Some (message_modal fl) \/ is_Some (role_view fl) ->
    is_Some (ChannelSelectView.selected_channel_id (channel_view fl));
  tr_role_view :
    forall view, role_view fl = Some view ->
      Select.options (RoleSelectView.role_select view)
      = match role_option <$> listed_roles g with
        | [] => [RoleSelectView.no_roles_option]
        | options => options
        end
      /\ RoleSelectView.selected_channel_id view
         = ChannelSelectView.selected_channel_id (channel_view fl)
      /\ (forall r, r ∈ RoleSelectView.selected_roles view ->
            exists role, role ∈ listed_roles g /\ Role.id role = Object.id r);
  tr_private : Forall private (log fl);
  tr_target : Forall (sent_to_offered client g) (log fl);
  tr_mentions : Forall (mentions_listed g) (log fl)
}.

(** * Properties *)

Lemma to_int_proper (n : Z) :
  Z.to_int n <> Decimal.Pos Decimal.Nil /\ Z.to_int n <> Decimal.Neg Decimal.Nil.
Proof.
  destruct n as [|p|p]; simpl; split; try discriminate;
    intros [= E]; exact (DecimalPos.Unsigned.to_uint_nonnil p E).
Qed.

Lemma int_str (n : Z) : int (str n) = Some n.
Proof.
  unfold int, str. destruct (to_int_proper n) as [Hp Hn].
  rewrite NilZero.isi by assumption. simpl. f_equal. apply DecimalZ.of_to.
Qed.

Lemma str_inj (m n : Z) : str m = str n -> m = n.
Proof.
  intros E. pose proof (int_str m) as Hm. rewrite E, int_str in Hm. congruence.
Qed.

(** ** The invariant *)

Lemma int_no_channels : int "no_channels" = None.
Proof. reflexivity. Qed.

Lemma numeric_str (n : Z) (l : string) :
  numeric {| SelectOption.label := l; SelectOption.value := str n |}.
Proof. unfold numeric. simpl. rewrite int_str. eauto. Qed.

Lemma Inv_started (fl : Flow) : started fl -> Inv fl.
Proof.
  intros (interaction & calls & H). unfold send_message_command in H.
  destruct (Interaction.guild interaction) as [g|] eqn:Hg; [|discriminate].
  destruct (filter _ _) as [|ch chs] eqn:Hf; [discriminate|].
  injection H as _ <-. unfold Inv. simpl.
  repeat split; auto.
  constructor; [apply numeric_str|].
  apply Forall_fmap, Forall_forall. intros c _. apply numeric_str.
Qed.

(** A selection the platform lets through on the channel prompt of a flow
    names one channel by its identifier. *)
Lemma channel_selection (fl : Flow) (values : list string) :
  Inv fl ->
  submittable (ChannelSelectView.channel_select (channel_view fl)) values ->
  exists first id, values = [first] /\ int first = Some id /\ first <> "no_channels".
Proof.
  intros (_ & _ & Hmin & Hmax & Hnum & _) (_ & Hlen & Hsub).
  rewrite Hmin, Hmax in Hlen.
  destruct values as [|first [|second rest]]; simpl in Hlen; try lia.
  assert (Hin : first ∈ SelectOption.value <$> Select.options
                  (ChannelSelectView.channel_select (channel_view fl))).
  { apply Hsub. left. }
  apply list_elem_of_fmap in Hin as (o & -> & Ho).
  rewrite Forall_forall in Hnum. destruct (Hnum o Ho) as [id Hid].
  exists (SelectOption.value o), id. repeat split; auto.
  intros E. rewrite E, int_no_channels in Hid. discriminate.
Qed.

Lemma channel_select_callback_selects (self : ChannelSelectView.t) (ns : Namespace)
    (first : string) (id : Z) :
  int first = Some id -> first <> "no_channels" ->
  channel_select_callback (ChannelSelectView.set_values [first] self) ns
  = (ChannelSelectView.set_selected_channel_id id
       (ChannelSelectView.set_values [first] self),
     <["selected_channel_id" := VInt id]> ns,
     [response_send_modal MessageModal.__init__],
     Waiting MessageModal.__init__).
Proof.
  intros Hid Hne. unfold channel_select_callback. simpl.
  destruct (decide (first = "no_channels")); [contradiction|]. rewrite Hid. reflexivity.
Qed.

Lemma existsb_is_delivery_app (l k : list Call) :
  existsb is_delivery (l ++ k) = existsb is_delivery l || existsb is_delivery k.
Proof. apply existsb_app. Qed.

Lemma role_select_callback_keeps (client : Client) (self self' : RoleSelectView.t)
    (calls : list Call) (c : Completion) :
  role_select_callback client self = (self', calls, c) ->
  existsb is_delivery calls = false
  /\ RoleSelectView.stopped self' = RoleSelectView.stopped self
  /\ RoleSelectView.timeout self' = RoleSelectView.timeout self
  /\ RoleSelectView.selected_channel_id self' = RoleSelectView.selected_channel_id self.
Proof.
  unfold role_select_callback.
  destruct (decide _); [intros [= <- <- <-]; auto|].
  destruct (mapM int _) as [ids|]; [|intros [= <- <- <-]; auto].
  simpl. destruct (Object.Build_t <$> ids) as [|r rs]; [intros [= <- <- <-]; auto|].
  destruct (mapM _ _); intros [= <- <- <-]; auto.
Qed.

Lemma send_message_action_keeps (client : Client) (self self' : RoleSelectView.t)
    (ns : Namespace) (roles : list Object.t) (calls : list Call) (c : Completion) :
  send_message_action client self ns roles = (self', calls, c) ->
  RoleSelectView.timeout self' = RoleSelectView.timeout self
  /\ (self' = self /\ existsb is_delivery calls = false
      \/ RoleSelectView.stopped self' = true).
Proof.
  unfold send_message_action.
  destruct (ns !! "msg_title"); [|intros [= <- <- <-]; auto].
  destruct (ns !! "body"); [|intros [= <- <- <-]; auto].
  destruct (get_channel _ _) as [[channel|other]|]; intros [= <- <- <-]; auto.
Qed.

Lemma Inv_step (client : Client) (fl : Flow) (ev : Event) :
  Inv fl -> Inv (step client fl ev).
Proof.
  intros HI. pose proof HI as (Hg & Ht & Hmin & Hmax & Hnum & Hrv).
  destruct ev as [values|msg_title body|values| |]; simpl.
  - destruct (ChannelSelectView.stopped (channel_view fl)) eqn:Hs; [exact HI|].
    destruct (decide _) as [Hsub|]; [|exact HI].
    destruct (channel_selection fl values HI Hsub) as (first & id & -> & Hid & Hne).
    rewrite (channel_select_callback_selects _ _ _ _ Hid Hne).
    unfold Inv. simpl. repeat split; auto.
    destruct (role_view fl) as [view|].
    + destruct Hrv as (Hs' & _). congruence.
    + destruct Hrv as (_ & Hd & _). repeat split; auto.
      rewrite existsb_is_delivery_app, Hd. reflexivity.
  - destruct (message_modal fl) as [m|] eqn:Hm; [|exact HI].
    destruct (decide _) as [Hfill|]; [|exact HI].
    unfold on_submit, channel_select_callback_resumed.
    assert (Hattr : is_Some (<["body":=VStr body]>
                               (<["msg_title":=VStr msg_title]> (namespace fl))
                             !! "msg_title")
                    /\ is_Some (<["body":=VStr body]>
                                  (<["msg_title":=VStr msg_title]> (namespace fl))
                                !! "body")).
    { rewrite lookup_insert_ne by discriminate. rewrite !lookup_insert_eq. eauto. }
    simpl. destruct (decide _) as [_|Hno]; [|contradiction].
    destruct Hg as [g Hg]. rewrite Hg.
    unfold Inv. simpl. rewrite Hg.
    destruct (role_view fl) as [view|].
    { destruct Hrv as (_ & Hnone & _). congruence. }
    destruct Hrv as (_ & Hd & _).
    destruct Hattr. repeat split; eauto.
    intros _. rewrite !existsb_is_delivery_app, Hd. reflexivity.
  - destruct (role_view fl) as [view|] eqn:Hv; [|exact HI].
    destruct (RoleSelectView.stopped view) eqn:Hs; [exact HI|].
    destruct (decide _) as [Hsub|]; [|exact HI].
    destruct (role_select_callback _ _) as [[self calls] c] eqn:E.
    apply role_select_callback_keeps in E as (Hd & Hst & Hto & _).
    destruct Hrv as (H1 & H2 & H3 & H4 & H5 & H6).
    unfold Inv. simpl. repeat split; auto.
    + rewrite Hto. exact H5.
    + intros _. rewrite existsb_is_delivery_app, H6, Hd by auto. reflexivity.
  - destruct (role_view fl) as [view|] eqn:Hv; [|exact HI].
    destruct (RoleSelectView.stopped view) eqn:Hs; [exact HI|].
    destruct (send_button_callback _ _ _) as [[self calls] c] eqn:E.
    apply send_message_action_keeps in E as (Hto & Hcase).
    destruct Hrv as (H1 & H2 & H3 & H4 & H5 & H6).
    unfold Inv. simpl. repeat split; auto.
    + rewrite Hto. exact H5.
    + intros Hlive. destruct Hcase as [[-> Hd]|Hstop]; [|congruence].
      rewrite existsb_is_delivery_app, H6, Hd by auto. reflexivity.
  - destruct (role_view fl) as [view|] eqn:Hv; [|exact HI].
    destruct (RoleSelectView.stopped view) eqn:Hs; [exact HI|].
    destruct (skip_button_callback _ _ _) as [[self calls] c] eqn:E.
    apply send_message_action_keeps in E as (Hto & Hcase).
    destruct Hrv as (H1 & H2 & H3 & H4 & H5 & H6).
    unfold Inv. simpl. repeat split; auto.
    + rewrite Hto. exact H5.
    + intros Hlive. destruct Hcase as [[-> Hd]|Hstop]; [|congruence].
      rewrite existsb_is_delivery_app, H6, Hd by auto. reflexivity.
Qed.

Lemma Inv_run (client : Client) (events : list Event) (fl : Flow) :
  Inv fl -> Inv (run client fl events).
Proof.
  revert fl. induction events as [|ev events IH]; intros fl HI; [exact HI|].
  apply IH, Inv_step, HI.
Qed.

Lemma Inv_reachable (client : Client) (fl : Flow) : reachable client fl -> Inv fl.
Proof. intros (fl0 & events & H0 & ->). apply Inv_run, Inv_started, H0. Qed.

(** ** Stages along a flow *)

Lemma stage_step (client : Client) (fl : Flow) (ev : Event) :
  Inv fl ->
  stage (step client fl ev) = stage fl
  \/ next_stage (stage fl) (stage (step client fl ev)).
Proof.
  intros HI. pose proof HI as (Hg & Ht & Hmin & Hmax & Hnum & Hrv).
  destruct ev as [values|msg_title body|values| |]; simpl.
  - destruct (ChannelSelectView.stopped (channel_view fl)) eqn:Hs; [by left|].
    destruct (decide _) as [Hsub|]; [|by left].
    destruct (channel_selection fl values HI Hsub) as (first & id & -> & Hid & Hne).
    rewrite (channel_select_callback_selects _ _ _ _ Hid Hne).
    unfold stage. simpl.
    destruct (role_view fl) as [view|].
    { destruct Hrv as (Hs' & _). congruence. }
    destruct (message_modal fl); [by left|]. rewrite Hs. right. constructor.
  - destruct (message_modal fl) as [m|] eqn:Hm; [|by left].
    destruct (decide _) as [Hfill|]; [|by left].
    unfold on_submit, channel_select_callback_resumed.
    assert (Hattr : is_Some (<["body":=VStr body]>
                               (<["msg_title":=VStr msg_title]> (namespace fl))
                             !! "msg_title")
                    /\ is_Some (<["body":=VStr body]>
                                  (<["msg_title":=VStr msg_title]> (namespace fl))
                                !! "body")).
    { rewrite lookup_insert_ne by discriminate. rewrite !lookup_insert_eq. eauto. }
    simpl. destruct (decide _) as [_|Hno]; [|contradiction].
    destruct Hg as [g Hg]. rewrite Hg.
    unfold stage. simpl. rewrite Hm.
    destruct (role_view fl) as [view|].
    { destruct Hrv as (_ & Hnone & _). congruence. }
    right. constructor.
  - destruct (role_view fl) as [view|] eqn:Hv; [|by left].
    destruct (RoleSelectView.stopped view) eqn:Hs; [by left|].
    destruct (decide _) as [Hsub|]; [|by left].
    destruct (role_select_callback _ _) as [[self calls] c] eqn:E.
    apply role_select_callback_keeps in E as (Hd & Hst & _).
    unfold stage. simpl. rewrite Hv, Hst. simpl. rewrite Hs. by left.
  - destruct (role_view fl) as [view|] eqn:Hv; [|by left].
    destruct (RoleSelectView.stopped view) eqn:Hs; [by left|].
    destruct (send_button_callback _ _ _) as [[self calls] c] eqn:E.
    apply send_message_action_keeps in E as (_ & Hcase).
    unfold stage. simpl. rewrite Hv, Hs.
    destruct Hcase as [[-> _]|Hstop]; [rewrite Hs; by left|].
    rewrite Hstop. right. destruct (existsb is_delivery (log fl ++ calls)); constructor.
  - destruct (role_view fl) as [view|] eqn:Hv; [|by left].
    destruct (RoleSelectView.stopped view) eqn:Hs; [by left|].
    destruct (skip_button_callback _ _ _) as [[self calls] c] eqn:E.
    apply send_message_action_keeps in E as (_ & Hcase).
    unfold stage. simpl. rewrite Hv, Hs.
    destruct Hcase as [[-> _]|Hstop]; [rewrite Hs; by left|].
    rewrite Hstop. right. destruct (existsb is_delivery (log fl ++ calls)); constructor.
Qed.

Lemma stage_run (client : Client) (events : list Event) (fl : Flow) :
  Inv fl -> rtc next_stage (stage fl) (stage (run client fl events)).
Proof.
  revert fl. induction events as [|ev events IH]; intros fl HI; [constructor|].
  simpl. destruct (stage_step client fl ev HI) as [E|N].
  - rewrite <- E. apply IH, Inv_step, HI.
  - eapply rtc_l; [exact N|]. apply IH, Inv_step, HI.
Qed.

Lemma started_scenario (g : Guild.t) :
  Guild.text_channels g = [Scenario.general; Scenario.logs] ->
  started (Scenario.flow g).
Proof.
  intros Hc. exists (Scenario.invocation g). eexists.
  unfold send_message_command. simpl. rewrite Hc. reflexivity.
Qed.

Lemma reachable_run (client : Client) (fl : Flow) (events : list Event) :
  started fl -> reachable client (run client fl events).
Proof. intros H. exists fl, events. auto. Qed.

(** C2.  Along every sequence of events a flow receives, the stage stays
    where it is or moves to the next stage of
    AwaitingChannel, AwaitingForm, AwaitingRoles, then Completed or Aborted:
    no event moves it back and none skips a stage. *)
Theorem stage_only_moves_forward (client : Client) (fl : Flow) (ev : Event)
    (events : list Event) :
  reachable client fl ->
  (stage (step client fl ev) = stage fl
   \/ next_stage (stage fl) (stage (step client fl ev)))
  /\ rtc next_stage (stage fl) (stage (run client fl events)).
Proof.
  intros Hr. apply Inv_reachable in Hr. split.
  - apply stage_step, Hr.
  - apply stage_run, Hr.
Qed.

Lemma stage_only_moves_forward_witness :
  let client := Scenario.client None in
  let fl := Scenario.awaiting_form Scenario.guild in
  let ev := modal_submitted "Maintenance" "Service restarts at 5pm" in
  let events := [ev; roles_selected ["11"]; send_pressed] in
  reachable client fl
  /\ (stage (step client fl ev) = stage fl
      \/ next_stage (stage fl) (stage (step client fl ev)))
  /\ rtc next_stage (stage fl) (stage (run client fl events)).
Proof.
  assert (Hr : reachable (Scenario.client None)
                 (Scenario.awaiting_form Scenario.guild)).
  { apply reachable_run, started_scenario. reflexivity. }
  split; [exact Hr|].
  exact (stage_only_moves_forward _ _ _ _ Hr).
Defined.

(** ** Events that reach no handler *)

Lemma stale_step (client : Client) (fl : Flow) (ev : Event) :
  Inv fl ->
  event_stage ev <> stage fl ->
  ~ (stage fl = AwaitingForm /\ event_stage ev = AwaitingChannel) ->
  step client fl ev = fl.
Proof.
  intros (_ & _ & _ & _ & _ & Hrv) Hne Hex.
  unfold stage in Hne, Hex.
  destruct ev as [values|msg_title body|values| |]; simpl in *.
  - destruct (role_view fl) as [view|].
    + destruct Hrv as (-> & _). reflexivity.
    + destruct (message_modal fl); [tauto|].
      destruct (ChannelSelectView.stopped (channel_view fl)); [reflexivity|congruence].
  - destruct (role_view fl) as [view|].
    + destruct Hrv as (_ & -> & _). reflexivity.
    + destruct (message_modal fl); [congruence|reflexivity].
  - destruct (role_view fl) as [view|]; [|reflexivity].
    destruct (RoleSelectView.stopped view); [reflexivity|congruence].
  - destruct (role_view fl) as [view|]; [|reflexivity].
    destruct (RoleSelectView.stopped view); [reflexivity|congruence].
  - destruct (role_view fl) as [view|]; [|reflexivity].
    destruct (RoleSelectView.stopped view); [reflexivity|congruence].
Qed.

Lemma terminal_step (client : Client) (fl : Flow) (ev : Event) :
  Inv fl -> terminal (stage fl) -> step client fl ev = fl.
Proof.
  intros HI Hterm. apply stale_step; [exact HI| |].
  - destruct Hterm as [E|E]; rewrite E; destruct ev; discriminate.
  - destruct Hterm as [E|E]; rewrite E; intros [? _]; discriminate.
Qed.

Lemma terminal_run (client : Client) (events : list Event) (fl : Flow) :
  Inv fl -> terminal (stage fl) -> run client fl events = fl.
Proof.
  intros HI Hterm. induction events as [|ev events IH]; [reflexivity|].
  simpl. rewrite terminal_step by assumption. exact IH.
Qed.

(** C1, as the code has it.  An event of a stage other than the stage the
    flow is in reaches no handler: the flow is unchanged and nothing is sent,
    no report of a stale interaction either.  This covers every event after
    Completed or Aborted.  The one event left out is a channel selection
    while the form is awaited: the channel prompt is stopped only once the
    form is in, so that selection is handled again. *)
Theorem stale_event_reaches_no_handler (client : Client) (fl : Flow) (ev : Event) :
  reachable client fl ->
  event_stage ev <> stage fl ->
  ~ (stage fl = AwaitingForm /\ event_stage ev = AwaitingChannel) ->
  step client fl ev = fl.
Proof.
  intros Hr Hne Hex. apply stale_step; [apply (Inv_reachable client), Hr|exact Hne|exact Hex].
Qed.

Lemma stale_event_reaches_no_handler_witness :
  let client := Scenario.client None in
  let fl := run client (Scenario.flow Scenario.guild)
              [channel_selected ["1"];
               modal_submitted "Maintenance" "Service restarts at 5pm";
               roles_selected ["11"]; send_pressed] in
  stage fl = Completed
  /\ step client fl send_pressed = fl
  /\ step client fl (roles_selected ["11"]) = fl.
Proof.
  assert (Hr : reachable (Scenario.client None)
                 (run (Scenario.client None) (Scenario.flow Scenario.guild)
                    [channel_selected ["1"];
                     modal_submitted "Maintenance" "Service restarts at 5pm";
                     roles_selected ["11"]; send_pressed])).
  { apply reachable_run, started_scenario. reflexivity. }
  split; [vm_compute; reflexivity|]. split.
  - apply (stale_event_reaches_no_handler _ _ send_pressed Hr).
    + vm_compute. discriminate.
    + vm_compute. intros [E _]. discriminate.
  - apply (stale_event_reaches_no_handler _ _ (roles_selected ["11"]) Hr).
    + vm_compute. discriminate.
    + vm_compute. intros [E _]. discriminate.
Defined.

(** C1 as stated fails.  The flow of the scenario awaits the form after
    "general" (1) was selected.  A selection of "logs" (2), an event of the
    stage AwaitingChannel, is handled: the selected channel becomes 2, the
    namespace is rewritten, and the only thing sent is a second form. *)
Lemma reselection_while_form_awaited :
  let client := Scenario.client None in
  let fl := Scenario.awaiting_form Scenario.guild in
  let ev := channel_selected ["2"] in
  reachable client fl
  /\ stage fl = AwaitingForm
  /\ event_stage ev = AwaitingChannel
  /\ ChannelSelectView.selected_channel_id (channel_view fl) = Some 1
  /\ ChannelSelectView.selected_channel_id (channel_view (step client fl ev)) = Some 2
  /\ namespace (step client fl ev) !! "selected_channel_id" = Some (VInt 2)
  /\ log (step client fl ev) = log fl ++ [response_send_modal MessageModal.__init__]
  /\ step client fl ev <> fl.
Proof.
  simpl. split; [apply reachable_run, started_scenario; reflexivity|].
  repeat split; try (vm_compute; reflexivity).
  intros E.
  apply (f_equal (fun f => ChannelSelectView.selected_channel_id (channel_view f))) in E.
  vm_compute in E. discriminate.
Qed.

(** ** The mention prefix *)

Lemma has_char_app (c : ascii) (s t : string) :
  has_char c (s +:+ t) = has_char c s || has_char c t.
Proof.
  induction s as [|c' s IH]; simpl; [reflexivity|].
  rewrite IH. apply orb_assoc.
Qed.

Lemma has_char_uint (c : ascii) (d : Decimal.uint) :
  has_char c "-0123456789" = false ->
  has_char c (NilEmpty.string_of_uint d) = false.
Proof.
  intros H. simpl in H.
  repeat (apply orb_false_iff in H; destruct H as [? H]).
  induction d; simpl; try rewrite IHd; try reflexivity;
    apply orb_false_iff; split; auto.
Qed.

Lemma has_char_str (c : ascii) (n : Z) :
  has_char c "-0123456789" = false -> has_char c (str n) = false.
Proof.
  intros H. unfold str.
  assert (Hz : has_char c "0" = false).
  { simpl in *. repeat (apply orb_false_iff in H; destruct H as [? H]).
    apply orb_false_iff. auto. }
  assert (Hm : Ascii.eqb "-" c = false).
  { simpl in H. apply orb_false_iff in H. tauto. }
  assert (Hu : forall d, has_char c (NilZero.string_of_uint d) = false).
  { intros d. destruct d; try exact Hz; apply (has_char_uint c _ H). }
  destruct (Z.to_int n) as [d|d]; unfold NilZero.string_of_int.
  - apply Hu.
  - cbn [has_char]. rewrite Hm, Hu. reflexivity.
Qed.

Lemma has_char_role_mention (role : Object.t) :
  has_char " " (role_mention role) = false.
Proof.
  unfold role_mention. rewrite !has_char_app, has_char_str; reflexivity.
Qed.

Lemma app_sep_inj (c : ascii) (s1 s2 r1 r2 : string) :
  has_char c s1 = false -> has_char c s2 = false ->
  s1 +:+ String c r1 = s2 +:+ String c r2 -> s1 = s2.
Proof.
  revert s2. induction s1 as [|a s1 IH]; intros [|b s2]; simpl; intros H1 H2 E.
  - reflexivity.
  - injection E as -> _. rewrite Ascii.eqb_refl in H2. discriminate.
  - injection E as -> _. rewrite Ascii.eqb_refl in H1. discriminate.
  - injection E as -> E. apply orb_false_iff in H1 as [_ H1].
    apply orb_false_iff in H2 as [_ H2]. f_equal. exact (IH _ H1 H2 E).
Qed.

Lemma role_mention_inj (a b : Object.t) : role_mention a = role_mention b -> a = b.
Proof.
  unfold role_mention. intros E. apply (inj (String.append "<@&")) in E.
  apply app_sep_inj in E; try (apply has_char_str; reflexivity).
  apply str_inj in E. destruct a, b. simpl in E. congruence.
Qed.

Lemma split_on_token (sep : ascii) (t : string) :
  has_char sep t = false -> split_on sep t = [t].
Proof.
  induction t as [|c t IH]; simpl; [reflexivity|].
  intros H. apply orb_false_iff in H as [Hc Ht]. rewrite Hc, (IH Ht). reflexivity.
Qed.

Lemma split_on_app (sep : ascii) (t rest : string) :
  has_char sep t = false ->
  split_on sep (t +:+ String sep rest) = t :: split_on sep rest.
Proof.
  induction t as [|c t IH]; simpl.
  - intros _. rewrite Ascii.eqb_refl. reflexivity.
  - intros H. apply orb_false_iff in H as [Hc Ht]. rewrite Hc, (IH Ht). reflexivity.
Qed.

Lemma split_on_join (sep : ascii) (tokens : list string) :
  tokens <> [] ->
  Forall (fun t => has_char sep t = false) tokens ->
  split_on sep (join (String sep "") tokens) = tokens.
Proof.
  induction tokens as [|t [|t' tokens] IH]; intros Hne Hall; [contradiction| |].
  - apply split_on_token. by inversion Hall.
  - inversion Hall as [|? ? Ht Hrest]; subst.
    change (join (String sep "") (t :: t' :: tokens))
      with (t +:+ String sep (join (String sep "") (t' :: tokens))).
    rewrite split_on_app by exact Ht. f_equal. apply IH; [discriminate|exact Hrest].
Qed.

Lemma join_role_mentions_nonempty (role : Object.t) (roles : list Object.t) :
  join " " (role_mention <$> role :: roles) <> "".
Proof. destruct roles; discriminate. Qed.

(** C3.  When the channel is found, [send_message_action] sends one message:
    with no roles its content is [None], no mention prefix; with roles its
    content is the prefix, which reads back as one mention token per role,
    in order, the tokens pairwise different when the roles are. *)
Theorem finalize_mention_prefix (client : Client) (self : RoleSelectView.t)
    (ns : Namespace) (roles : list Object.t) (msg_title body : Value)
    (channel : TextChannel.t) :
  ns !! "msg_title" = Some msg_title ->
  ns !! "body" = Some body ->
  get_channel client (RoleSelectView.selected_channel_id self)
    = Some (IsTextChannel channel) ->
  NoDup roles ->
  exists content reply,
    let embed := {| Embed.title := msg_title; Embed.description := body;
                    Embed.color := Color_blue |} in
    send_message_action client self ns roles
    = (RoleSelectView.stop self,
       [channel_send channel content embed (send client channel content embed);
        response_send_message reply None true],
       Returned)
    /\ (roles = [] -> content = None)
    /\ (roles <> [] ->
        exists prefix,
          content = Some prefix
          /\ split_on " " prefix = role_mention <$> roles
          /\ length (split_on " " prefix) = length roles
          /\ NoDup (split_on " " prefix)).
Proof.
  intros Ht Hb Hc Hnd. unfold send_message_action. rewrite Ht, Hb, Hc.
  destruct roles as [|role roles].
  - simpl. eexists None, _. split; [reflexivity|]. split; [reflexivity|]. congruence.
  - fold (role_mention <$> role :: roles).
    change (fun role0 : Object.t => "<@&" +:+ str (Object.id role0) +:+ ">")
      with role_mention.
    destruct (decide _) as [E|_].
    { exfalso. exact (join_role_mentions_nonempty role roles E). }
    eexists (Some _), _. split; [reflexivity|]. split; [discriminate|].
    intros _. eexists. split; [reflexivity|].
    assert (Hs : split_on " " (join " " (role_mention <$> role :: roles))
                 = role_mention <$> role :: roles).
    { apply split_on_join; [discriminate|].
      apply Forall_fmap, Forall_forall. intros r _. apply has_char_role_mention. }
    rewrite Hs. split; [reflexivity|]. split; [apply length_fmap|].
    apply NoDup_fmap_2; [|exact Hnd]. intros a b. apply role_mention_inj.
Qed.

Lemma finalize_mention_prefix_witness :
  let client := Scenario.client None in
  let fl := Scenario.awaiting_roles Scenario.guild in
  let roles := [{| Object.id := 11 |}; {| Object.id := 12 |}] in
  exists view content reply,
    role_view fl = Some view
    /\ send_message_action client view (namespace fl) roles
       = (RoleSelectView.stop view,
          [channel_send Scenario.general content
             {| Embed.title := VStr "Maintenance";
                Embed.description := VStr "Service restarts at 5pm";
                Embed.color := Color_blue |} None;
           response_send_message reply None true],
          Returned)
    /\ content = Some "<@&11> <@&12>"
    /\ split_on " " "<@&11> <@&12>" = ["<@&11>"; "<@&12>"].
Proof.
  simpl. eexists.
  destruct (finalize_mention_prefix (Scenario.client None)
              (RoleSelectView.__init__ (Guild.roles Scenario.guild)
                 (Scenario.invocation Scenario.guild) (Some 1))
              (namespace (Scenario.awaiting_roles Scenario.guild))
              [{| Object.id := 11 |}; {| Object.id := 12 |}]
              (VStr "Maintenance") (VStr "Service restarts at 5pm")
              Scenario.general)
    as (content & reply & Hsend & _ & Hsome).
  - reflexivity.
  - reflexivity.
  - reflexivity.
  - constructor; [|apply NoDup_singleton].
    intros H. apply list_elem_of_singleton in H. discriminate.
  - exists content, reply. split; [reflexivity|]. split; [exact Hsend|].
    split; [|reflexivity].
    destruct (Hsome ltac:(discriminate)) as (prefix & -> & _).
    vm_compute in Hsend. congruence.
Defined.

(** ** Starting a flow *)

Lemma command_paths (utils_Namespace : option Namespace) (interaction : Interaction.t) :
  match Interaction.guild interaction with
  | None =>
      send_message_command utils_Namespace interaction
      = ([response_send_message "This command can only be used in a server." None true],
         Returned, None)
  | Some guild =>
      match eligible_channels guild with
      | [] =>
          send_message_command utils_Namespace interaction
          = ([response_send_message
                "I don't have permission to send messages in any channel, or no text channels exist."
                None true],
             Returned, None)
      | _ :: _ =>
          match utils_Namespace with
          | None =>
              send_message_command utils_Namespace interaction
              = ([], Raised AttributeError, None)
          | Some ns =>
              exists fl,
                send_message_command utils_Namespace interaction
                = ([response_send_message
                      "Please select a channel to send the message to:"
                      (Some (AChannelSelectView (channel_view fl))) true],
                   Returned, Some fl)
                /\ namespace fl = ns
                /\ Select.options (ChannelSelectView.channel_select (channel_view fl))
                   = channel_option <$> eligible_channels guild
          end
      end
  end.
Proof.
  unfold send_message_command, eligible_channels.
  destruct (Interaction.guild interaction) as [guild|]; [|reflexivity].
  simpl. destruct (filter _ _) as [|ch0 chs] eqn:Hf; [reflexivity|].
  destruct utils_Namespace as [ns|]; [|reflexivity].
  eexists {| namespace := ns;
             channel_view := ChannelSelectView.__init__ (ch0 :: chs) interaction;
             message_modal := None; role_view := None; log := _ |}.
  split; [reflexivity|]. split; reflexivity.
Qed.

(** C4.  The two refusals are as claimed: outside a guild the command replies
    that it is for servers only, and in a guild with no channel in which the
    bot may send it replies so; each time it returns and leaves no flow.  The
    success path is not: in the guild of the scenario, where both channels
    are eligible, the command raises [AttributeError] at line 181, before the
    view is built and before anything is sent, and leaves no flow. *)
Theorem command_raises_before_prompt :
  let in_guild := Scenario.invocation Scenario.guild in
  let no_guild := {| Interaction.guild := None |} in
  let no_channel :=
    Scenario.invocation {| Guild.me := Scenario.bot; Guild.text_channels := [];
                           Guild.roles := [Scenario.everyone] |} in
  eligible_channels Scenario.guild = [Scenario.general; Scenario.logs]
  /\ send_message_command None in_guild = ([], Raised AttributeError, None)
  /\ send_message_command None no_guild
     = ([response_send_message "This command can only be used in a server." None true],
        Returned, None)
  /\ send_message_command None no_channel
     = ([response_send_message
           "I don't have permission to send messages in any channel, or no text channels exist."
           None true],
        Returned, None).
Proof. repeat split. Qed.

(** ** The form *)

(** C5 as stated fails.  The flow of the scenario awaits the form; a title
    made of one space is blank once trimmed; the form is taken all the same:
    the title is stored as it is, the role prompt is shown and the flow
    awaits the roles. *)
Lemma blank_title_is_accepted :
  let client := Scenario.client None in
  let fl := Scenario.awaiting_form Scenario.guild in
  let fl' := step client fl (modal_submitted " " "Service restarts at 5pm") in
  reachable client fl
  /\ stage fl = AwaitingForm
  /\ blank " " = true
  /\ on_submit (MessageModal.fill " " "Service restarts at 5pm" MessageModal.__init__)
       (namespace fl)
     = (<["body" := VStr "Service restarts at 5pm"]>
          (<["msg_title" := VStr " "]> (namespace fl)),
        [response_defer])
  /\ stage fl' = AwaitingRoles
  /\ stage fl' <> AwaitingForm
  /\ namespace fl' !! "msg_title" = Some (VStr " ")
  /\ exists view,
       role_view fl' = Some view
       /\ log fl' = log fl ++ [response_defer;
                               followup_send "Please select roles to mention (optional):"
                                 (Some (ARoleSelectView view)) true].
Proof.
  simpl. split; [apply reachable_run, started_scenario; reflexivity|].
  repeat split; try (vm_compute; reflexivity).
  - vm_compute. discriminate.
  - eexists. split; vm_compute; reflexivity.
Qed.

(** C5, as the code has it.  Both fields of the form are required, so a form
    with an empty title or an empty body does not reach the handler, and the
    flow stays as it is.  A form with text in both fields is taken whatever
    the text: the handler trims nothing and rejects nothing, it stores title
    and body as they are, the role prompt is shown and the flow awaits the
    roles. *)
Theorem form_taken_as_typed (client : Client) (fl : Flow) (msg_title body : string) :
  reachable client fl ->
  stage fl = AwaitingForm ->
  let fl' := step client fl (modal_submitted msg_title body) in
  (msg_title = "" \/ body = "" -> fl' = fl)
  /\ (msg_title <> "" -> body <> "" ->
      stage fl' = AwaitingRoles
      /\ namespace fl' !! "msg_title" = Some (VStr msg_title)
      /\ namespace fl' !! "body" = Some (VStr body)
      /\ exists view,
           role_view fl' = Some view
           /\ log fl' = log fl ++ [response_defer;
                                   followup_send "Please select roles to mention (optional):"
                                     (Some (ARoleSelectView view)) true]).
Proof.
  intros Hr Hst. apply Inv_reachable in Hr.
  destruct Hr as ([g Hg] & _ & _ & _ & _ & Hrv).
  unfold stage in Hst. simpl.
  destruct (role_view fl) as [view|] eqn:Hv.
  { destruct (RoleSelectView.stopped view); [destruct (existsb _ _)|]; discriminate. }
  destruct (message_modal fl) as [m|] eqn:Hm.
  2:{ destruct (ChannelSelectView.stopped _); discriminate. }
  destruct Hrv as (_ & _ & [Hnone|Hsome]); [congruence|].
  assert (m = MessageModal.__init__) as -> by congruence.
  split.
  - intros Hempty. destruct (decide _) as [[Ht Hb]|_]; [|reflexivity].
    exfalso. destruct Hempty as [->| ->]; [apply Ht|apply Hb]; reflexivity.
  - intros Ht Hb. destruct (decide _) as [_|Hno].
    2:{ exfalso. apply Hno. split; intros _; assumption. }
    unfold on_submit, channel_select_callback_resumed. simpl.
    assert (Hattr : is_Some (<["body":=VStr body]>
                               (<["msg_title":=VStr msg_title]> (namespace fl))
                             !! "msg_title")
                    /\ is_Some (<["body":=VStr body]>
                                  (<["msg_title":=VStr msg_title]> (namespace fl))
                                !! "body")).
    { rewrite lookup_insert_ne by discriminate. rewrite !lookup_insert_eq. eauto. }
    destruct (decide _) as [_|Hno]; [|contradiction].
    rewrite Hg. unfold stage. simpl.
    split; [reflexivity|]. split.
    { rewrite lookup_insert_ne by discriminate. apply lookup_insert_eq. }
    split; [apply lookup_insert_eq|].
    eexists. split; reflexivity.
Qed.

Lemma form_taken_as_typed_witness :
  let client := Scenario.client None in
  let fl := Scenario.awaiting_form Scenario.guild in
  let fl' := step client fl (modal_submitted "  Maintenance " "Service restarts at 5pm") in
  stage fl = AwaitingForm
  /\ stage fl' = AwaitingRoles
  /\ namespace fl' !! "msg_title" = Some (VStr "  Maintenance ")
  /\ step client fl (modal_submitted "" "Service restarts at 5pm") = fl.
Proof.
  assert (Hr : reachable (Scenario.client None)
                 (Scenario.awaiting_form Scenario.guild)).
  { apply reachable_run, started_scenario. reflexivity. }
  assert (Hst : stage (Scenario.awaiting_form Scenario.guild) = AwaitingForm).
  { vm_compute. reflexivity. }
  split; [exact Hst|].
  destruct (form_taken_as_typed (Scenario.client None) _ "  Maintenance "
              "Service restarts at 5pm" Hr Hst) as [_ Htaken].
  destruct Htaken as (H1 & H2 & _); [discriminate|discriminate|].
  split; [exact H1|]. split; [exact H2|].
  destruct (form_taken_as_typed (Scenario.client None) _ ""
              "Service restarts at 5pm" Hr Hst) as [Hempty _].
  apply Hempty. left. reflexivity.
Defined.

(** ** Idle windows of the prompts *)

(** C6 as stated fails.  The flow of the scenario awaits the form, and the
    form it waits on has no idle window. *)
Lemma form_has_no_idle_window :
  let client := Scenario.client None in
  let fl := Scenario.awaiting_form Scenario.guild in
  reachable client fl
  /\ stage fl = AwaitingForm
  /\ pending_prompt fl = Some (form_prompt MessageModal.__init__)
  /\ idle_window (form_prompt MessageModal.__init__) = None
  /\ ~ (forall p, pending_prompt fl = Some p -> is_Some (idle_window p)).
Proof.
  simpl. split; [apply reachable_run, started_scenario; reflexivity|].
  repeat split; try (vm_compute; reflexivity).
  intros H. destruct (H (form_prompt MessageModal.__init__)) as [n Hn].
  - vm_compute. reflexivity.
  - discriminate.
Qed.

(** C6, as the code has it.  A flow awaiting the channel waits on the channel
    prompt and a flow awaiting the roles waits on the role prompt, each built
    with an idle window of 180 seconds; a flow awaiting the form waits on the
    form, built with no idle window; a flow that is over waits on nothing. *)
Theorem idle_window_of_each_stage (client : Client) (fl : Flow) :
  reachable client fl ->
  match stage fl with
  | AwaitingChannel =>
      pending_prompt fl = Some (channel_prompt (channel_view fl))
      /\ idle_window (channel_prompt (channel_view fl)) = Some 180%nat
  | AwaitingForm =>
      exists modal,
        pending_prompt fl = Some (form_prompt modal)
        /\ idle_window (form_prompt modal) = None
  | AwaitingRoles =>
      exists view,
        pending_prompt fl = Some (role_prompt view)
        /\ idle_window (role_prompt view) = Some 180%nat
  | Completed | Aborted => pending_prompt fl = None
  end.
Proof.
  intros Hr. apply Inv_reachable in Hr.
  destruct Hr as (_ & Ht & _ & _ & _ & Hrv).
  unfold stage, pending_prompt.
  destruct (role_view fl) as [view|].
  - destruct Hrv as (_ & _ & _ & _ & Hto & _).
    destruct (RoleSelectView.stopped view).
    + destruct (existsb _ _); reflexivity.
    + exists view. auto.
  - destruct Hrv as (_ & _ & [Hnone|Hsome]).
    + rewrite Hnone. destruct (ChannelSelectView.stopped _); auto.
    + rewrite Hsome. exists MessageModal.__init__. auto.
Qed.

Lemma idle_window_of_each_stage_witness :
  let fl := Scenario.awaiting_form Scenario.guild in
  exists modal,
    pending_prompt fl = Some (form_prompt modal)
    /\ idle_window (form_prompt modal) = None.
Proof.
  assert (Hr : reachable (Scenario.client None)
                 (Scenario.awaiting_form Scenario.guild)).
  { apply reachable_run, started_scenario. reflexivity. }
  exact (idle_window_of_each_stage _ _ Hr).
Defined.

(** ** Send and skip *)

Lemma press_step (client : Client) (fl : Flow) (view self : RoleSelectView.t)
    (ev : Event) (roles : list Object.t) (calls : list Call) (c : Completion) :
  role_view fl = Some view ->
  RoleSelectView.stopped view = false ->
  ev = send_pressed /\ roles = RoleSelectView.selected_roles view
  \/ ev = skip_pressed /\ roles = [] ->
  send_message_action client view (namespace fl) roles = (self, calls, c) ->
  step client fl ev
  = {| namespace := namespace fl; channel_view := channel_view fl;
       message_modal := message_modal fl; role_view := Some self;
       log := log fl ++ calls |}.
Proof.
  intros Hv Hs [[-> ->]|[-> ->]] E; simpl; rewrite Hv, Hs;
    unfold send_button_callback, skip_button_callback; rewrite E; reflexivity.
Qed.

Lemma send_message_action_found (client : Client) (self : RoleSelectView.t)
    (ns : Namespace) (roles : list Object.t) (msg_title body : Value)
    (channel : TextChannel.t) :
  ns !! "msg_title" = Some msg_title ->
  ns !! "body" = Some body ->
  get_channel client (RoleSelectView.selected_channel_id self)
    = Some (IsTextChannel channel) ->
  exists content,
    let embed := {| Embed.title := msg_title; Embed.description := body;
                    Embed.color := Color_blue |} in
    (roles = [] -> content = None)
    /\ send_message_action client self ns roles
       = (RoleSelectView.stop self,
          [channel_send channel content embed (send client channel content embed);
           response_send_message
             match send client channel content embed with
             | None => "Message sent to " +:+ TextChannel.mention channel +:+ "!"
             | Some Forbidden =>
                 "Error: I don't have permission to send messages to that channel."
             | Some (OtherError e) => "An unexpected error occurred: " +:+ e
             end None true],
          Returned).
Proof.
  intros Ht Hb Hc. unfold send_message_action. rewrite Ht, Hb, Hc.
  eexists. split; [|reflexivity]. intros ->. reflexivity.
Qed.

Lemma send_message_action_not_found (client : Client) (self : RoleSelectView.t)
    (ns : Namespace) (roles : list Object.t) :
  is_Some (ns !! "msg_title") ->
  is_Some (ns !! "body") ->
  (forall channel,
     get_channel client (RoleSelectView.selected_channel_id self)
     <> Some (IsTextChannel channel)) ->
  send_message_action client self ns roles
  = (self,
     [response_send_message "Error: Could not find the selected channel." None true],
     Returned).
Proof.
  intros [t Ht] [b Hb] Hc. unfold send_message_action. rewrite Ht, Hb.
  destruct (get_channel _ _) as [[channel|other]|] eqn:E; try reflexivity.
  exfalso. exact (Hc channel eq_refl).
Qed.

Lemma stage_awaiting_roles (fl : Flow) (view : RoleSelectView.t) :
  role_view fl = Some view -> RoleSelectView.stopped view = false ->
  stage fl = AwaitingRoles.
Proof. intros Hv Hs. unfold stage. rewrite Hv, Hs. reflexivity. Qed.

(** C7.  The role prompt is live and the channel is found, but the platform
    forbids the send.  Then send and skip alike attempt the delivery once,
    reply with the permission error to the user alone, and return without
    raising; the flow ends Aborted, and whatever event comes next leaves it
    as it is: nothing is sent again. *)
Theorem forbidden_delivery_aborts (client : Client) (fl : Flow)
    (view : RoleSelectView.t) (channel : TextChannel.t) (ev : Event) :
  reachable client fl ->
  role_view fl = Some view ->
  RoleSelectView.stopped view = false ->
  ev = send_pressed \/ ev = skip_pressed ->
  get_channel client (RoleSelectView.selected_channel_id view)
    = Some (IsTextChannel channel) ->
  (forall content embed, send client channel content embed = Some Forbidden) ->
  let fl' := step client fl ev in
  stage fl = AwaitingRoles
  /\ stage fl' = Aborted
  /\ (exists content embed,
        log fl' = log fl ++
          [channel_send channel content embed (Some Forbidden);
           response_send_message
             "Error: I don't have permission to send messages to that channel."
             None true])
  /\ (forall roles, (send_message_action client view (namespace fl) roles).2 = Returned)
  /\ forall events, run client fl' events = fl'.
Proof.
  intros Hr Hv Hs Hev Hc Hforbid fl'.
  apply Inv_reachable in Hr. pose proof Hr as (_ & _ & _ & _ & _ & Hrv).
  rewrite Hv in Hrv. destruct Hrv as (_ & _ & [t Ht] & [b Hb] & _ & Hd).
  specialize (Hd Hs).
  assert (Hevr : exists roles,
             ev = send_pressed /\ roles = RoleSelectView.selected_roles view
             \/ ev = skip_pressed /\ roles = []).
  { destruct Hev as [-> | ->]; eexists; eauto. }
  destruct Hevr as [roles Hevr].
  destruct (send_message_action_found client view (namespace fl) roles t b channel
              Ht Hb Hc) as (content & _ & Hsend).
  simpl in Hsend. rewrite Hforbid in Hsend.
  assert (Hfl' : fl' = {| namespace := namespace fl; channel_view := channel_view fl;
                          message_modal := message_modal fl;
                          role_view := Some (RoleSelectView.stop view);
                          log := log fl ++
                            [channel_send channel content
                               {| Embed.title := t; Embed.description := b;
                                  Embed.color := Color_blue |} (Some Forbidden);
                             response_send_message
                               "Error: I don't have permission to send messages to that channel."
                               None true] |}).
  { exact (press_step client fl view _ ev roles _ _ Hv Hs Hevr Hsend). }
  assert (Hst : stage fl' = Aborted).
  { rewrite Hfl'. unfold stage. simpl.
    rewrite existsb_is_delivery_app, Hd. reflexivity. }
  split; [exact (stage_awaiting_roles fl view Hv Hs)|].
  split; [exact Hst|]. split.
  { exists content, {| Embed.title := t; Embed.description := b;
                       Embed.color := Color_blue |}.
    rewrite Hfl'. reflexivity. }
  split.
  { intros roles'.
    destruct (send_message_action_found client view (namespace fl) roles' t b channel
                Ht Hb Hc) as (content' & _ & Hsend').
    rewrite Hsend'. reflexivity. }
  intros events. apply terminal_run.
  - apply Inv_step, Hr.
  - right. exact Hst.
Qed.

Lemma forbidden_delivery_aborts_witness :
  let client := Scenario.client (Some Forbidden) in
  let fl := run client (Scenario.flow Scenario.guild)
              [channel_selected ["1"];
               modal_submitted "Maintenance" "Service restarts at 5pm";
               roles_selected ["11"]] in
  let fl' := step client fl send_pressed in
  stage fl = AwaitingRoles
  /\ stage fl' = Aborted
  /\ step client fl' send_pressed = fl'.
Proof.
  pose (client := Scenario.client (Some Forbidden)).
  pose (fl := run client (Scenario.flow Scenario.guild)
                [channel_selected ["1"];
                 modal_submitted "Maintenance" "Service restarts at 5pm";
                 roles_selected ["11"]]).
  assert (Hr : reachable client fl).
  { apply reachable_run, started_scenario. reflexivity. }
  destruct (forbidden_delivery_aborts client fl
              (RoleSelectView.set_selected_roles [{| Object.id := 11 |}]
                 (RoleSelectView.set_values ["11"]
                    (RoleSelectView.__init__ (Guild.roles Scenario.guild)
                       (Scenario.invocation Scenario.guild) (Some 1))))
              Scenario.general send_pressed Hr)
    as (H1 & H2 & _ & _ & H5).
  - vm_compute. reflexivity.
  - reflexivity.
  - left. reflexivity.
  - reflexivity.
  - intros content embed. reflexivity.
  - split; [exact H1|]. split; [exact H2|]. exact (H5 [send_pressed]).
Defined.

(** C9.  The role prompt is live, with whatever roles picked so far, and the
    channel is found.  Then skip sends the message with no content beside the
    embed, no mention prefix, and stops the prompt; what it sends is the same
    whatever roles had been picked. *)
Theorem skip_discards_selected_roles (client : Client) (fl : Flow)
    (view : RoleSelectView.t) (channel : TextChannel.t) :
  reachable client fl ->
  role_view fl = Some view ->
  RoleSelectView.stopped view = false ->
  get_channel client (RoleSelectView.selected_channel_id view)
    = Some (IsTextChannel channel) ->
  let fl' := step client fl skip_pressed in
  (exists embed reply,
     log fl' = log fl ++
       [channel_send channel None embed (send client channel None embed);
        response_send_message reply None true])
  /\ role_view fl' = Some (RoleSelectView.stop view)
  /\ terminal (stage fl')
  /\ forall chosen,
       (skip_button_callback client (RoleSelectView.set_selected_roles chosen view)
          (namespace fl)).1.2
       = (skip_button_callback client view (namespace fl)).1.2.
Proof.
  intros Hr Hv Hs Hc fl'.
  apply Inv_reachable in Hr. pose proof Hr as (_ & _ & _ & _ & _ & Hrv).
  rewrite Hv in Hrv. destruct Hrv as (_ & _ & [t Ht] & [b Hb] & _ & _).
  destruct (send_message_action_found client view (namespace fl) [] t b channel
              Ht Hb Hc) as (content & Hnone & Hsend).
  rewrite (Hnone eq_refl) in Hsend. simpl in Hsend.
  assert (Hfl' : fl' = _)
    by exact (press_step client fl view _ skip_pressed [] _ _ Hv Hs
                (or_intror (conj eq_refl eq_refl)) Hsend).
  rewrite Hfl'. simpl. split; [eauto|]. split; [reflexivity|]. split.
  - unfold terminal, stage. simpl. destruct (existsb _ _); auto.
  - intros chosen. unfold skip_button_callback.
    destruct (send_message_action_found client
                (RoleSelectView.set_selected_roles chosen view) (namespace fl) [] t b
                channel Ht Hb Hc) as (content' & Hnone' & Hsend').
    rewrite (Hnone' eq_refl) in Hsend'. rewrite Hsend', Hsend. reflexivity.
Qed.

Lemma skip_discards_selected_roles_witness :
  let client := Scenario.client None in
  let fl := run client (Scenario.flow Scenario.guild)
              [channel_selected ["1"];
               modal_submitted "Maintenance" "Service restarts at 5pm";
               roles_selected ["11"]] in
  let embed := {| Embed.title := VStr "Maintenance";
                  Embed.description := VStr "Service restarts at 5pm";
                  Embed.color := Color_blue |} in
  (exists view,
     role_view fl = Some view
     /\ RoleSelectView.selected_roles view = [{| Object.id := 11 |}])
  /\ log (step client fl skip_pressed)
     = log fl ++ [channel_send Scenario.general None embed None;
                  response_send_message "Message sent to <#1>!" None true]
  /\ log (step client fl send_pressed)
     = log fl ++ [channel_send Scenario.general (Some "<@&11>") embed None;
                  response_send_message "Message sent to <#1>!" None true].
Proof.
  pose (client := Scenario.client None).
  pose (fl := run client (Scenario.flow Scenario.guild)
                [channel_selected ["1"];
                 modal_submitted "Maintenance" "Service restarts at 5pm";
                 roles_selected ["11"]]).
  assert (Hr : reachable client fl).
  { apply reachable_run, started_scenario. reflexivity. }
  destruct (skip_discards_selected_roles client fl
              (RoleSelectView.set_selected_roles [{| Object.id := 11 |}]
                 (RoleSelectView.set_values ["11"]
                    (RoleSelectView.__init__ (Guild.roles Scenario.guild)
                       (Scenario.invocation Scenario.guild) (Some 1))))
              Scenario.general Hr)
    as ((embed & reply & Hlog) & _).
  - vm_compute. reflexivity.
  - reflexivity.
  - reflexivity.
  - split; [eexists; split; vm_compute; reflexivity|].
    split; vm_compute; reflexivity.
Defined.

(** C10.  The role prompt is live and the selected channel is not found, or
    is not a text channel.  Then send and skip alike reply to the user alone
    that the channel could not be found and do nothing else: nothing is
    delivered, the prompt is left as it was, not stopped, and the flow still
    awaits the roles, so a further send or skip is handled again. *)
Theorem unresolved_channel_keeps_flow_open (client : Client) (fl : Flow)
    (view : RoleSelectView.t) (ev : Event) :
  reachable client fl ->
  role_view fl = Some view ->
  RoleSelectView.stopped view = false ->
  ev = send_pressed \/ ev = skip_pressed ->
  (forall channel,
     get_channel client (RoleSelectView.selected_channel_id view)
     <> Some (IsTextChannel channel)) ->
  let fl' := step client fl ev in
  let reply :=
    response_send_message "Error: Could not find the selected channel." None true in
  log fl' = log fl ++ [reply]
  /\ existsb is_delivery (log fl') = false
  /\ role_view fl' = Some view
  /\ stage fl' = AwaitingRoles
  /\ pending_prompt fl' = Some (role_prompt view)
  /\ forall ev',
       ev' = send_pressed \/ ev' = skip_pressed ->
       log (step client fl' ev') = log fl' ++ [reply].
Proof.
  intros Hr Hv Hs Hev Hc fl' reply.
  apply Inv_reachable in Hr. pose proof Hr as (_ & _ & _ & _ & _ & Hrv).
  rewrite Hv in Hrv. destruct Hrv as (_ & _ & Ht & Hb & _ & Hd).
  specialize (Hd Hs).
  assert (Hpress : forall (f : Flow) e,
             role_view f = Some view -> namespace f = namespace fl ->
             e = send_pressed \/ e = skip_pressed ->
             step client f e
             = {| namespace := namespace f; channel_view := channel_view f;
                  message_modal := message_modal f; role_view := Some view;
                  log := log f ++ [reply] |}).
  { intros f e Hfv Hns He.
    assert (Her : exists roles,
               e = send_pressed /\ roles = RoleSelectView.selected_roles view
               \/ e = skip_pressed /\ roles = []).
    { destruct He as [-> | ->]; eexists; eauto. }
    destruct Her as [roles Her].
    apply (press_step client f view view e roles [reply] Returned Hfv Hs Her).
    rewrite Hns. apply send_message_action_not_found; assumption. }
  assert (Hfl' : fl' = _) by exact (Hpress fl ev Hv eq_refl Hev).
  rewrite Hfl'. simpl. split; [reflexivity|]. split.
  { rewrite existsb_is_delivery_app, Hd. reflexivity. }
  split; [reflexivity|]. split.
  { unfold stage. simpl. rewrite Hs. reflexivity. }
  split.
  { unfold pending_prompt. simpl. rewrite Hs. reflexivity. }
  intros ev' Hev'.
  rewrite (Hpress {| namespace := namespace fl; channel_view := channel_view fl;
                     message_modal := message_modal fl; role_view := Some view;
                     log := log fl ++ [reply] |} ev' eq_refl eq_refl Hev').
  reflexivity.
Qed.

Lemma unresolved_channel_keeps_flow_open_witness :
  let client := Scenario.client_without_channels in
  let fl := run client (Scenario.flow Scenario.guild)
              [channel_selected ["1"];
               modal_submitted "Maintenance" "Service restarts at 5pm"] in
  let fl' := step client fl send_pressed in
  let reply :=
    response_send_message "Error: Could not find the selected channel." None true in
  stage fl = AwaitingRoles
  /\ log fl' = log fl ++ [reply]
  /\ stage fl' = AwaitingRoles
  /\ log (step client fl' skip_pressed) = log fl ++ [reply; reply].
Proof.
  intros client fl fl' reply.
  assert (Hr : reachable client fl).
  { apply reachable_run, started_scenario. reflexivity. }
  destruct (unresolved_channel_keeps_flow_open client fl
              (RoleSelectView.__init__ (Guild.roles Scenario.guild)
                 (Scenario.invocation Scenario.guild) (Some 1))
              send_pressed Hr)
    as (H1 & _ & _ & H4 & _ & H6).
  - vm_compute. reflexivity.
  - reflexivity.
  - left. reflexivity.
  - intros channel. discriminate.
  - split; [vm_compute; reflexivity|]. split; [exact H1|]. split; [exact H4|].
    unfold fl'. rewrite (H6 skip_pressed (or_intror eq_refl)), H1, <- app_assoc.
    reflexivity.
Defined.

(** ** The role prompt *)

Lemma str_not_no_roles (n : Z) : str n <> "no_roles".
Proof.
  intros E. pose proof (int_str n) as H. rewrite E in H. discriminate.
Qed.

(** C8 as stated fails.  In a guild with no role besides the implicit one
    the role select holds the one entry "No roles available", and the
    platform lets the user pick it.  Picking it is not a skip: the handler
    replies that no roles are selected, nothing is delivered and the flow
    still awaits the roles, whereas skip delivers the message and completes
    the flow. *)
Lemma placeholder_selection_is_not_skip :
  let client := Scenario.client None in
  let fl := Scenario.awaiting_roles Scenario.bare_guild in
  let picked := step client fl (roles_selected ["no_roles"]) in
  let skipped := step client fl skip_pressed in
  reachable client fl
  /\ stage fl = AwaitingRoles
  /\ (exists view,
        role_view fl = Some view
        /\ Select.options (RoleSelectView.role_select view)
           = [RoleSelectView.no_roles_option]
        /\ submittable (RoleSelectView.role_select view) ["no_roles"])
  /\ log picked
     = log fl ++ [response_send_message "No roles selected or available." None true]
  /\ existsb is_delivery (log picked) = false
  /\ stage picked = AwaitingRoles
  /\ existsb is_delivery (log skipped) = true
  /\ stage skipped = Completed
  /\ picked <> skipped.
Proof.
  simpl. split; [apply reachable_run, started_scenario; reflexivity|].
  split; [vm_compute; reflexivity|]. split.
  { eexists. split; [vm_compute; reflexivity|]. split; [reflexivity|].
    split; [apply NoDup_singleton|]. split; [simpl; lia|].
    intros x Hx. exact Hx. }
  repeat split; try (vm_compute; reflexivity).
  intros E. apply (f_equal stage) in E. vm_compute in E. discriminate.
Qed.

(** C8, as the code has it.  The role select lists the roles of the guild
    whose name is not [@everyone], in order, labelled by name and valued with
    their identifier, and lets the user pick any number of them.  With no
    such role it holds the one entry "No roles available", which the user can
    pick; picking it raises nothing: the handler records that no role is
    chosen and replies so to the user alone, the prompt stays live, and from
    there send does exactly what skip does. *)
Theorem role_prompt_and_placeholder (client : Client) (guild_roles : list Role.t)
    (interaction : Interaction.t) (channel_id : option Z) :
  let view := RoleSelectView.__init__ guild_roles interaction channel_id in
  let select := RoleSelectView.role_select view in
  let listed := filter (fun role => Role.name role <> "@everyone") guild_roles in
  match listed with
  | _ :: _ =>
      Select.options select
      = (fun role => {| SelectOption.label := Role.name role;
                        SelectOption.value := str (Role.id role) |}) <$> listed
      /\ Select.min_values select = 1%nat
      /\ Select.max_values select = length listed
  | [] =>
      Select.options select = [RoleSelectView.no_roles_option]
      /\ Select.max_values select = 1%nat
      /\ submittable select ["no_roles"]
      /\ let picked := RoleSelectView.set_values ["no_roles"] view in
         let recorded := RoleSelectView.set_selected_roles [] picked in
         role_select_callback client picked
         = (recorded,
            [response_send_message "No roles selected or available." None true],
            Returned)
         /\ RoleSelectView.stopped recorded = false
         /\ forall ns,
              send_button_callback client recorded ns
              = skip_button_callback client recorded ns
  end.
Proof.
  unfold RoleSelectView.__init__. simpl.
  destruct (filter _ guild_roles) as [|role roles]; simpl.
  - split; [reflexivity|]. split; [reflexivity|]. split.
    { split; [apply NoDup_singleton|]. split; [simpl; lia|].
      intros x Hx. exact Hx. }
    split; [reflexivity|]. split; reflexivity.
  - split; [reflexivity|]. split; [reflexivity|].
    destruct (decide _) as [_|Hno]; [rewrite length_fmap; reflexivity|].
    exfalso. apply Hno, str_not_no_roles.
Qed.

(** ** How each handler ends *)

Lemma role_select_callback_cases (client : Client) (self self' : RoleSelectView.t)
    (calls : list Call) (c : Completion) :
  role_select_callback client self = (self', calls, c) ->
  let values := Select.values (RoleSelectView.role_select self) in
  (self' = self /\ calls = [] /\ c = Raised ValueError
   /\ ("no_roles" ∉ values) /\ mapM int values = None)
  \/ (exists rs,
        self' = RoleSelectView.set_selected_roles rs self
        /\ (calls = []
            \/ calls = [response_send_message "No roles selected or available." None true]
            \/ exists names,
                 calls = [response_send_message ("Selected roles: " +:+ names) None true])
        /\ c <> Raised ValueError
        /\ (("no_roles" ∈ values) /\ rs = []
            \/ ("no_roles" ∉ values)
               /\ exists ids, mapM int values = Some ids /\ rs = Object.Build_t <$> ids)).
Proof.
  unfold role_select_callback. simpl.
  destruct (decide _) as [Hin|Hnot].
  { intros [= <- <- <-]. right. exists [].
    split; [reflexivity|]. split; [auto|]. split; [discriminate|]. auto. }
  destruct (mapM int _) as [ids|] eqn:Hids.
  2:{ intros [= <- <- <-]. left. auto. }
  simpl. destruct (Object.Build_t <$> ids) as [|r rs] eqn:E.
  { intros [= <- <- <-]. right. exists []. rewrite <- E.
    split; [reflexivity|]. split; [eauto|]. split; [discriminate|].
    right. split; [exact Hnot|]. eauto. }
  destruct (mapM (Object_mention client) (r :: rs));
    intros [= <- <- <-]; right; exists (r :: rs); rewrite <- E;
    (split; [reflexivity|]; split; [eauto|]; split; [discriminate|];
     right; split; [exact Hnot|]; eauto).
Qed.

Lemma send_message_action_cases (client : Client) (self self' : RoleSelectView.t)
    (ns : Namespace) (roles : list Object.t) (calls : list Call) (c : Completion) :
  send_message_action client self ns roles = (self', calls, c) ->
  (self' = self /\ calls = [] /\ c = Raised AttributeError
   /\ (ns !! "msg_title" = None \/ ns !! "body" = None))
  \/ (self' = self /\ c = Returned
      /\ calls = [response_send_message "Error: Could not find the selected channel."
                    None true]
      /\ forall channel,
           get_channel client (RoleSelectView.selected_channel_id self)
           <> Some (IsTextChannel channel))
  \/ (exists channel t b,
        ns !! "msg_title" = Some t /\ ns !! "body" = Some b
        /\ get_channel client (RoleSelectView.selected_channel_id self)
           = Some (IsTextChannel channel)
        /\ self' = RoleSelectView.stop self /\ c = Returned
        /\ let embed := {| Embed.title := t; Embed.description := b;
                           Embed.color := Color_blue |} in
           let content := mention_prefix roles in
           calls = [channel_send channel content embed (send client channel content embed);
                    response_send_message
                      match send client channel content embed with
                      | None => "Message sent to " +:+ TextChannel.mention channel +:+ "!"
                      | Some Forbidden =>
                          "Error: I don't have permission to send messages to that channel."
                      | Some (OtherError e) => "An unexpected error occurred: " +:+ e
                      end None true]).
Proof.
  unfold send_message_action.
  destruct (ns !! "msg_title") as [t|] eqn:Ht; [|intros [= <- <- <-]; left; auto].
  destruct (ns !! "body") as [b|] eqn:Hb; [|intros [= <- <- <-]; left; auto].
  destruct (get_channel _ _) as [[channel|other]|] eqn:Hc.
  - intros [= <- <- <-]. right. right. exists channel, t, b.
    repeat split; auto.
    assert (Hcontent : (if decide (match roles with
                                   | [] => ""
                                   | _ :: _ =>
                                       join " "
                                         ((fun role => "<@&" +:+ str (Object.id role) +:+ ">")
                                            <$> roles)
                                   end = "")
                        then None
                        else Some match roles with
                                  | [] => ""
                                  | _ :: _ =>
                                      join " "
                                        ((fun role => "<@&" +:+ str (Object.id role) +:+ ">")
                                           <$> roles)
                                  end) = mention_prefix roles).
    { destruct roles as [|role roles]; [reflexivity|].
      destruct (decide _) as [E|_]; [|reflexivity].
      exfalso. exact (join_role_mentions_nonempty role roles E). }
    simpl. rewrite Hcontent. reflexivity.
  - intros [= <- <- <-]. right. left. repeat split; auto; discriminate.
  - intros [= <- <- <-]. right. left. repeat split; auto; discriminate.
Qed.

(** ** The shape of a step *)

Lemma channel_step (client : Client) (fl : Flow) (values : list string) :
  Inv fl ->
  ChannelSelectView.stopped (channel_view fl) = false ->
  submittable (ChannelSelectView.channel_select (channel_view fl)) values ->
  exists first id,
    values = [first] /\ int first = Some id
    /\ step client fl (channel_selected values)
       = {| namespace := <["selected_channel_id" := VInt id]> (namespace fl);
            channel_view :=
              ChannelSelectView.set_selected_channel_id id
                (ChannelSelectView.set_values [first] (channel_view fl));
            message_modal := Some MessageModal.__init__;
            role_view := role_view fl;
            log := log fl ++ [response_send_modal MessageModal.__init__] |}.
Proof.
  intros HI Hs Hsub.
  destruct (channel_selection fl values HI Hsub) as (first & id & -> & Hid & Hne).
  exists first, id. split; [reflexivity|]. split; [exact Hid|].
  simpl. rewrite Hs. destruct (decide _) as [_|Hno]; [|contradiction].
  rewrite (channel_select_callback_selects _ _ _ _ Hid Hne). reflexivity.
Qed.

Lemma modal_step (client : Client) (fl : Flow) (g : Guild.t) (msg_title body : string) :
  Inv fl ->
  is_Some (message_modal fl) ->
  Interaction.guild (ChannelSelectView.original_interaction (channel_view fl)) = Some g ->
  msg_title <> "" -> body <> "" ->
  let view :=
    RoleSelectView.__init__ (Guild.roles g)
      (ChannelSelectView.original_interaction (channel_view fl))
      (ChannelSelectView.selected_channel_id (channel_view fl)) in
  role_view fl = None
  /\ step client fl (modal_submitted msg_title body)
     = {| namespace := <["body" := VStr body]>
                         (<["msg_title" := VStr msg_title]> (namespace fl));
          channel_view := ChannelSelectView.stop (channel_view fl);
          message_modal := None;
          role_view := Some view;
          log := log fl ++ [response_defer;
                            followup_send "Please select roles to mention (optional):"
                              (Some (ARoleSelectView view)) true] |}.
Proof.
  intros (_ & _ & _ & _ & _ & Hrv) [m Hm] Hg Ht Hb view.
  destruct (role_view fl) as [v|] eqn:Hv.
  { destruct Hrv as (_ & Hnone & _). congruence. }
  split; [reflexivity|].
  destruct Hrv as (_ & _ & [Hnone|Hsome]); [congruence|].
  simpl. rewrite Hsome.
  destruct (decide _) as [_|Hno].
  2:{ exfalso. apply Hno. split; intros _; assumption. }
  unfold on_submit, channel_select_callback_resumed. simpl.
  assert (Hattr : is_Some (<["body":=VStr body]>
                             (<["msg_title":=VStr msg_title]> (namespace fl))
                           !! "msg_title")
                  /\ is_Some (<["body":=VStr body]>
                                (<["msg_title":=VStr msg_title]> (namespace fl))
                              !! "body")).
  { rewrite lookup_insert_ne by discriminate. rewrite !lookup_insert_eq. eauto. }
  destruct (decide _) as [_|Hno]; [|contradiction].
  rewrite Hg. reflexivity.
Qed.

Lemma modal_step_empty (client : Client) (fl : Flow) (msg_title body : string) :
  Inv fl -> msg_title = "" \/ body = "" ->
  step client fl (modal_submitted msg_title body) = fl.
Proof.
  intros (_ & _ & _ & _ & _ & Hrv) Hempty. simpl.
  destruct (message_modal fl) as [m|] eqn:Hm; [|reflexivity].
  destruct (role_view fl) as [v|].
  { destruct Hrv as (_ & Hnone & _). congruence. }
  destruct Hrv as (_ & _ & [Hnone|Hsome]); [congruence|].
  assert (m = MessageModal.__init__) as -> by congruence.
  destruct (decide _) as [[Ht Hb]|_]; [|reflexivity].
  exfalso. destruct Hempty as [->| ->]; [apply Ht|apply Hb]; reflexivity.
Qed.

Lemma roles_step (client : Client) (fl : Flow) (view self : RoleSelectView.t)
    (values : list string) (calls : list Call) (c : Completion) :
  role_view fl = Some view ->
  RoleSelectView.stopped view = false ->
  submittable (RoleSelectView.role_select view) values ->
  role_select_callback client (RoleSelectView.set_values values view) = (self, calls, c) ->
  step client fl (roles_selected values)
  = {| namespace := namespace fl; channel_view := channel_view fl;
       message_modal := message_modal fl; role_view := Some self;
       log := log fl ++ calls |}.
Proof.
  intros Hv Hs Hsub E. simpl. rewrite Hv, Hs.
  destruct (decide _) as [_|Hno]; [|contradiction]. rewrite E. reflexivity.
Qed.

(** ** What a flow keeps track of *)

Lemma Forall2_elem_of_right {A B : Type} (P : A -> B -> Prop) (l : list A) (k : list B)
    (y : B) :
  Forall2 P l k -> y ∈ k -> exists x, x ∈ l /\ P x y.
Proof.
  induction 1 as [|x y' l k Hxy _ IH]; intros Hy.
  - inversion Hy.
  - apply elem_of_cons in Hy as [->|Hy].
    + exists x. split; [left|exact Hxy].
    + destruct (IH Hy) as (x' & Hx' & HP). exists x'. split; [by right|exact HP].
Qed.

Lemma role_options_init (g : Guild.t) (interaction : Interaction.t) (id : option Z) :
  Select.options
    (RoleSelectView.role_select (RoleSelectView.__init__ (Guild.roles g) interaction id))
  = match role_option <$> listed_roles g with
    | [] => [RoleSelectView.no_roles_option]
    | options => options
    end.
Proof.
  unfold RoleSelectView.__init__, listed_roles. simpl.
  destruct (filter _ (Guild.roles g)); reflexivity.
Qed.

(** A value picked in the role select of a tracked flow, other than the
    placeholder, is the identifier of a listed role. *)
Lemma picked_role_is_listed (g : Guild.t) (select : Select.t) (values : list string)
    (v : string) (id : Z) :
  Select.options select
  = match role_option <$> listed_roles g with
    | [] => [RoleSelectView.no_roles_option]
    | options => options
    end ->
  submittable select values -> v ∈ values -> int v = Some id ->
  exists role, role ∈ listed_roles g /\ Role.id role = id.
Proof.
  intros Hopt (_ & _ & Hsub) Hv Hid.
  apply Hsub in Hv. rewrite Hopt in Hv.
  destruct (role_option <$> listed_roles g) as [|o os] eqn:E.
  - apply list_elem_of_fmap in Hv as (o & -> & Ho).
    apply list_elem_of_singleton in Ho as ->. discriminate.
  - rewrite <- E in Hv. apply list_elem_of_fmap in Hv as (o' & -> & Ho).
    apply list_elem_of_fmap in Ho as (role & -> & Hrole).
    exists role. split; [exact Hrole|].
    simpl in Hid. rewrite int_str in Hid. congruence.
Qed.

Lemma Tracks_started (client : Client) (fl : Flow) :
  started fl -> exists g, Tracks client g fl.
Proof.
  intros (interaction & calls & H). unfold send_message_command in H.
  destruct (Interaction.guild interaction) as [g|] eqn:Hg; [|discriminate].
  destruct (filter _ _) as [|ch chs] eqn:Hf; [discriminate|].
  injection H as _ <-. exists g.
  constructor; simpl; try discriminate.
  - exact Hg.
  - unfold eligible_channels. rewrite Hf. reflexivity.
  - intros [[? [=]]|[? [=]]].
  - repeat constructor.
  - repeat constructor.
  - repeat constructor.
Qed.

Lemma Tracks_channel (client : Client) (g : Guild.t) (fl : Flow) (values : list string) :
  Inv fl -> Tracks client g fl ->
  Tracks client g (step client fl (channel_selected values)).
Proof.
  intros HI HT.
  destruct (ChannelSelectView.stopped (channel_view fl)) eqn:Hs.
  { simpl. rewrite Hs. exact HT. }
  destruct (decide (submittable (ChannelSelectView.channel_select (channel_view fl))
                      values)) as [Hsub|Hno].
  2:{ simpl. rewrite Hs. destruct (decide _); [contradiction|exact HT]. }
  destruct (channel_step client fl values HI Hs Hsub) as (first & id & -> & Hid & ->).
  assert (Hrv : role_view fl = None).
  { destruct HI as (_ & _ & _ & _ & _ & Hrv).
    destruct (role_view fl); [|reflexivity]. destruct Hrv as (Hs' & _). congruence. }
  destruct HT. constructor; simpl.
  - assumption.
  - assumption.
  - intros id' [= <-].
    destruct Hsub as (_ & _ & Hsub).
    assert (Hin : first ∈ SelectOption.value <$> Select.options
                    (ChannelSelectView.channel_select (channel_view fl))).
    { apply Hsub. left. }
    rewrite tr_options0 in Hin.
    apply list_elem_of_fmap in Hin as (o & -> & Ho).
    apply list_elem_of_fmap in Ho as (ch & -> & Hch).
    exists ch. split; [exact Hch|].
    simpl in Hid. rewrite int_str in Hid. congruence.
  - eauto.
  - rewrite Hrv. discriminate.
  - apply Forall_app. split; [assumption|]. repeat constructor.
  - apply Forall_app. split; [assumption|]. repeat constructor.
  - apply Forall_app. split; [assumption|]. repeat constructor.
Qed.

Lemma Tracks_modal (client : Client) (g : Guild.t) (fl : Flow) (msg_title body : string) :
  Inv fl -> Tracks client g fl ->
  Tracks client g (step client fl (modal_submitted msg_title body)).
Proof.
  intros HI HT.
  destruct (decide (msg_title = "" \/ body = "")) as [Hempty|Hfull].
  { rewrite modal_step_empty by assumption. exact HT. }
  destruct (message_modal fl) as [m|] eqn:Hm.
  2:{ simpl. rewrite Hm. exact HT. }
  assert (Ht : msg_title <> "") by tauto.
  assert (Hb : body <> "") by tauto.
  destruct (modal_step client fl g msg_title body HI) as [Hnone ->];
    [rewrite Hm; eauto|apply HT|exact Ht|exact Hb|].
  destruct HT. constructor; simpl.
  - assumption.
  - assumption.
  - assumption.
  - intros _. apply tr_selected0. left. rewrite Hm. eauto.
  - intros view [= <-]. split; [apply role_options_init|].
    split; [reflexivity|]. intros r Hr; inversion Hr.
  - apply Forall_app. split; [assumption|]. repeat constructor.
  - apply Forall_app. split; [assumption|]. repeat constructor.
  - apply Forall_app. split; [assumption|]. repeat constructor.
Qed.

Lemma Tracks_roles (client : Client) (g : Guild.t) (fl : Flow) (values : list string) :
  Inv fl -> Tracks client g fl ->
  Tracks client g (step client fl (roles_selected values)).
Proof.
  intros HI HT.
  destruct (role_view fl) as [view|] eqn:Hv.
  2:{ simpl. rewrite Hv. exact HT. }
  destruct (RoleSelectView.stopped view) eqn:Hs.
  { simpl. rewrite Hv, Hs. exact HT. }
  destruct (decide (submittable (RoleSelectView.role_select view) values)) as [Hsub|Hno].
  2:{ simpl. rewrite Hv, Hs. destruct (decide _); [contradiction|exact HT]. }
  destruct (role_select_callback client (RoleSelectView.set_values values view))
    as [[self calls] c] eqn:E.
  rewrite (roles_step client fl view self values calls c Hv Hs Hsub E).
  apply role_select_callback_cases in E. simpl in E.
  destruct HT. destruct (tr_role_view0 view Hv) as (Hopt & Hsel & Hlisted).
  assert (Hcalls : calls = []
                   \/ exists text, calls = [response_send_message text None true]).
  { destruct E as [(_ & -> & _)|(rs & _ & [->|[->|[names ->]]] & _)]; eauto. }
  assert (Hview : Select.options (RoleSelectView.role_select self)
                  = Select.options (RoleSelectView.role_select view)
                  /\ RoleSelectView.selected_channel_id self
                     = RoleSelectView.selected_channel_id view
                  /\ forall r, r ∈ RoleSelectView.selected_roles self ->
                       exists role, role ∈ listed_roles g /\ Role.id role = Object.id r).
  { destruct E as [(-> & _)|(rs & -> & _ & _ & Hrs)]; simpl.
    - auto.
    - repeat split; auto.
      destruct Hrs as [[_ ->]|(_ & ids & Hids & ->)]; intros r Hr; [inversion Hr|].
      apply list_elem_of_fmap in Hr as (id & -> & Hid).
      apply mapM_Some_1 in Hids.
      destruct (Forall2_elem_of_right _ _ _ _ Hids Hid) as (v & Hv' & Hint).
      exact (picked_role_is_listed g _ values v id Hopt Hsub Hv' Hint). }
  destruct Hview as (Hopt' & Hsel' & Hlisted').
  constructor; simpl; try assumption.
  - intros _. apply tr_selected0. right. rewrite Hv. eauto.
  - intros view' [= <-]. rewrite Hopt', Hsel'. repeat split; auto.
  - apply Forall_app. split; [assumption|].
    destruct Hcalls as [->|(text & ->)]; repeat constructor.
  - apply Forall_app. split; [assumption|].
    destruct Hcalls as [->|(text & ->)]; repeat constructor.
  - apply Forall_app. split; [assumption|].
    destruct Hcalls as [->|(text & ->)]; repeat constructor.
Qed.

Lemma Tracks_press (client : Client) (g : Guild.t) (fl : Flow) (ev : Event) :
  ev = send_pressed \/ ev = skip_pressed ->
  Inv fl -> Tracks client g fl ->
  Tracks client g (step client fl ev).
Proof.
  intros Hev HI HT.
  destruct (role_view fl) as [view|] eqn:Hv.
  2:{ destruct Hev as [-> | ->]; simpl; rewrite Hv; exact HT. }
  destruct (RoleSelectView.stopped view) eqn:Hs.
  { destruct Hev as [-> | ->]; simpl; rewrite Hv, Hs; exact HT. }
  destruct HT. destruct (tr_role_view0 view Hv) as (Hopt & Hsel & Hlisted).
  assert (Hroles : exists roles,
             (ev = send_pressed /\ roles = RoleSelectView.selected_roles view
              \/ ev = skip_pressed /\ roles = [])
             /\ forall r, r ∈ roles ->
                  exists role, role ∈ listed_roles g /\ Role.id role = Object.id r).
  { destruct Hev as [-> | ->]; eexists; (split; [eauto|]); auto.
    intros r Hr. inversion Hr. }
  destruct Hroles as (roles & Hevr & Hrl).
  destruct (send_message_action client view (namespace fl) roles)
    as [[self calls] c] eqn:E.
  rewrite (press_step client fl view self ev roles calls c Hv Hs Hevr E).
  apply send_message_action_cases in E.
  destruct E as [(-> & -> & _)|[(-> & _ & -> & _)|
                 (channel & t & b & Ht & Hb & Hc & -> & _ & ->)]].
  - rewrite app_nil_r. constructor; simpl; try assumption.
    + intros _. apply tr_selected0. right. rewrite Hv. eauto.
    + intros view' [= <-]. auto.
  - constructor; simpl; try assumption.
    + intros _. apply tr_selected0. right. rewrite Hv. eauto.
    + intros view' [= <-]. auto.
    + apply Forall_app. split; [assumption|]. repeat constructor.
    + apply Forall_app. split; [assumption|]. repeat constructor.
    + apply Forall_app. split; [assumption|]. repeat constructor.
  - constructor; simpl; try assumption.
    + intros _. apply tr_selected0. right. rewrite Hv. eauto.
    + intros view' [= <-]. simpl. auto.
    + apply Forall_app. split; [assumption|]. repeat constructor.
    + apply Forall_app. split; [assumption|]. repeat constructor. simpl.
      destruct tr_selected0 as [id Hid]; [right; rewrite Hv; eauto|].
      destruct (tr_picked0 id Hid) as (ch & Hch & <-).
      exists ch. split; [exact Hch|]. rewrite <- Hid, <- Hsel. exact Hc.
    + apply Forall_app. split; [assumption|]. repeat constructor. simpl.
      exists roles. auto.
Qed.

Lemma Tracks_step (client : Client) (g : Guild.t) (fl : Flow) (ev : Event) :
  Inv fl -> Tracks client g fl -> Tracks client g (step client fl ev).
Proof.
  intros HI HT. destruct ev.
  - apply Tracks_channel; assumption.
  - apply Tracks_modal; assumption.
  - apply Tracks_roles; assumption.
  - apply Tracks_press; auto.
  - apply Tracks_press; auto.
Qed.

Lemma Tracks_run (client : Client) (g : Guild.t) (events : list Event) (fl : Flow) :
  Inv fl -> Tracks client g fl -> Tracks client g (run client fl events).
Proof.
  revert fl. induction events as [|ev events IH]; intros fl HI HT; [exact HT|].
  apply IH; [apply Inv_step, HI|apply Tracks_step; assumption].
Qed.

Lemma Tracks_reachable (client : Client) (fl : Flow) :
  reachable client fl -> exists g, Tracks client g fl.
Proof.
  intros (fl0 & events & H0 & ->).
  destruct (Tracks_started client fl0 H0) as [g HT]. exists g.
  apply Tracks_run; [apply Inv_started, H0|exact HT].
Qed.

(** ** Further properties of the handlers *)

Lemma mapM_int_str (ids : list Z) : mapM int (str <$> ids) = Some ids.
Proof. apply mapM_fmap_Some. exact int_str. Qed.

Lemma no_roles_not_str (ids : list Z) : "no_roles" ∉ str <$> ids.
Proof.
  intros H. apply list_elem_of_fmap in H as (id & E & _).
  exact (str_not_no_roles id (eq_sym E)).
Qed.

Lemma tracked_guild (client : Client) (fl : Flow) (g : Guild.t) :
  reachable client fl ->
  Interaction.guild (ChannelSelectView.original_interaction (channel_view fl)) = Some g ->
  Tracks client g fl.
Proof.
  intros Hr Hg. destruct (Tracks_reachable client fl Hr) as [g' HT].
  assert (g' = g) as <-; [|exact HT].
  destruct HT as [Hg' _ _ _ _ _ _ _]. congruence.
Qed.

(** X1.  [role_select_callback], given the values the role select shows for
    any identifiers (their [str]), records exactly those identifiers, in the
    order picked, and does not raise [ValueError]: [int] reads back what
    [str] wrote. *)
Theorem role_selection_round_trip (client : Client) (self : RoleSelectView.t)
    (ids : list Z) :
  let picked := RoleSelectView.set_values (str <$> ids) self in
  exists calls c,
    role_select_callback client picked
    = (RoleSelectView.set_selected_roles (Object.Build_t <$> ids) picked, calls, c)
    /\ c <> Raised ValueError
    /\ RoleSelectView.selected_roles
         (RoleSelectView.set_selected_roles (Object.Build_t <$> ids) picked)
       = Object.Build_t <$> ids.
Proof.
  intros picked.
  destruct (role_select_callback client picked) as [[self' calls] c] eqn:E.
  exists calls, c. pose proof E as Hcases.
  apply role_select_callback_cases in Hcases. simpl in Hcases.
  rewrite mapM_int_str in Hcases.
  destruct Hcases as [(_ & _ & _ & _ & [=])|(rs & -> & _ & Hc & Hrs)].
  destruct Hrs as [[Hin _]|(_ & ids' & [= <-] & ->)].
  { exfalso. exact (no_roles_not_str ids Hin). }
  auto.
Qed.

Lemma role_select_callback_picked (client : Client) (self : RoleSelectView.t)
    (ids : list Z) :
  "no_roles" ∉ Select.values (RoleSelectView.role_select self) ->
  mapM int (Select.values (RoleSelectView.role_select self)) = Some ids ->
  let roles := Object.Build_t <$> ids in
  exists c,
    role_select_callback client self
    = (RoleSelectView.set_selected_roles roles self,
       match roles with
       | [] => [response_send_message "Selected roles: None" None true]
       | _ :: _ =>
           match mapM (Object_mention client) roles with
           | None => []
           | Some mentions =>
               [response_send_message ("Selected roles: " +:+ join ", " mentions)
                  None true]
           end
       end, c).
Proof.
  intros Hno Hids roles. unfold role_select_callback.
  destruct (decide _) as [Hin|_]; [contradiction|]. rewrite Hids. simpl.
  fold roles. destruct roles as [|r rs]; [eexists; reflexivity|].
  destruct (mapM (Object_mention client) (r :: rs)); eexists; reflexivity.
Qed.

(** X2.  In a flow whose role prompt is live and whose channel is found, a
    selection of roles the platform lets through, followed by "Send Message",
    sends one message whose content is the mention prefix of exactly the
    roles selected, in the order picked.  Between the two the log holds what
    the selection replied and nothing else: nothing when reading [mention] on
    the selected objects raises [AttributeError], as it does on a
    [discord.Object] (the roles are recorded before line 79 raises); the
    private "Selected roles" text otherwise. *)
Theorem send_mentions_the_selection (client : Client) (fl : Flow)
    (view : RoleSelectView.t) (channel : TextChannel.t) (values : list string)
    (ids : list Z) :
  reachable client fl ->
  role_view fl = Some view ->
  RoleSelectView.stopped view = false ->
  submittable (RoleSelectView.role_select view) values ->
  "no_roles" ∉ values ->
  mapM int values = Some ids ->
  get_channel client (RoleSelectView.selected_channel_id view)
    = Some (IsTextChannel channel) ->
  let fl' := run client fl [roles_selected values; send_pressed] in
  let roles := Object.Build_t <$> ids in
  let said :=
    match roles with
    | [] => [response_send_message "Selected roles: None" None true]
    | _ :: _ =>
        match mapM (Object_mention client) roles with
        | None => []
        | Some mentions =>
            [response_send_message ("Selected roles: " +:+ join ", " mentions) None true]
        end
    end in
  exists embed reply,
    let content := mention_prefix roles in
    log fl' = log fl ++ said ++
                [channel_send channel content embed (send client channel content embed);
                 response_send_message reply None true]
    /\ terminal (stage fl').
Proof.
  intros Hr Hv Hs Hsub Hno Hids Hc fl' roles said.
  apply Inv_reachable in Hr. pose proof Hr as (_ & _ & _ & _ & _ & Hrv).
  rewrite Hv in Hrv. destruct Hrv as (_ & _ & [t Ht] & [b Hb] & _ & _).
  destruct (role_select_callback_picked client (RoleSelectView.set_values values view)
              ids Hno Hids) as [c E].
  fold roles said in E.
  pose proof (roles_step client fl view _ values said c Hv Hs Hsub E) as Hstep1.
  set (picked := RoleSelectView.set_selected_roles roles
                   (RoleSelectView.set_values values view)) in *.
  destruct (send_message_action client picked (namespace fl) roles)
    as [[self2 calls2] c2] eqn:E2.
  pose proof (press_step client
                {| namespace := namespace fl; channel_view := channel_view fl;
                   message_modal := message_modal fl; role_view := Some picked;
                   log := log fl ++ said |}
                picked self2 send_pressed roles calls2 c2
                eq_refl Hs (or_introl (conj eq_refl eq_refl)) E2) as Hstep2.
  unfold fl'.
  change (run client fl [roles_selected values; send_pressed])
    with (step client (step client fl (roles_selected values)) send_pressed).
  rewrite Hstep1, Hstep2.
  apply send_message_action_cases in E2.
  destruct E2 as [(_ & _ & _ & [Hn|Hn])|[(_ & _ & _ & Hnf)|
                  (channel' & t' & b' & Ht' & Hb' & Hc' & -> & _ & ->)]].
  - congruence.
  - congruence.
  - exfalso. exact (Hnf channel Hc).
  - assert (channel' = channel) as -> by (simpl in Hc'; congruence).
    simpl. eexists _, _.
    split; [rewrite <- app_assoc; reflexivity|].
    unfold terminal, stage. simpl. destruct (existsb _ _); auto.
Qed.

Lemma send_mentions_the_selection_witness :
  let client := Scenario.client None in
  let fl := Scenario.awaiting_roles Scenario.guild in
  exists embed,
    log (run client fl [roles_selected ["11"]; send_pressed])
    = log fl ++ [channel_send Scenario.general (Some "<@&11>") embed None;
                 response_send_message "Message sent to <#1>!" None true].
Proof.
  intros client fl.
  assert (Hr : reachable client fl).
  { apply reachable_run, started_scenario. reflexivity. }
  destruct (send_mentions_the_selection client fl
              (RoleSelectView.__init__ (Guild.roles Scenario.guild)
                 (Scenario.invocation Scenario.guild) (Some 1))
              Scenario.general ["11"] [11] Hr)
    as (embed & reply & Hlog & _).
  - reflexivity.
  - reflexivity.
  - split; [apply NoDup_singleton|]. split; [simpl; lia|].
    intros x Hx. exact Hx.
  - intros H. apply list_elem_of_singleton in H. discriminate.
  - reflexivity.
  - reflexivity.
  - exists embed. rewrite Hlog. simpl.
    assert (Hreply : reply = "Message sent to <#1>!").
    { apply (f_equal (fun l => last l)) in Hlog. vm_compute in Hlog.
      congruence. }
    rewrite Hreply. reflexivity.
Defined.

Lemma channel_round_trip_step (client : Client) (fl : Flow) (g : Guild.t)
    (ch : TextChannel.t) :
  reachable client fl ->
  Interaction.guild (ChannelSelectView.original_interaction (channel_view fl)) = Some g ->
  ChannelSelectView.stopped (channel_view fl) = false ->
  ch ∈ eligible_channels g ->
  let fl' := step client fl (channel_selected [str (TextChannel.id ch)]) in
  ChannelSelectView.selected_channel_id (channel_view fl') = Some (TextChannel.id ch)
  /\ namespace fl' !! "selected_channel_id" = Some (VInt (TextChannel.id ch))
  /\ log fl' = log fl ++ [response_send_modal MessageModal.__init__]
  /\ stage fl' = AwaitingForm
  /\ ChannelSelectView.original_interaction (channel_view fl')
     = ChannelSelectView.original_interaction (channel_view fl).
Proof.
  intros Hr Hg Hs Hch fl'.
  pose proof (tracked_guild client fl g Hr Hg) as HT.
  apply Inv_reachable in Hr. pose proof Hr as (_ & _ & Hmin & Hmax & _ & Hrv).
  assert (Hsub : submittable (ChannelSelectView.channel_select (channel_view fl))
                   [str (TextChannel.id ch)]).
  { split; [apply NoDup_singleton|]. rewrite Hmin, Hmax. split; [simpl; lia|].
    intros v Hv. apply list_elem_of_singleton in Hv as ->.
    destruct HT as [_ Hopt _ _ _ _ _ _]. rewrite Hopt.
    apply list_elem_of_fmap. exists (channel_option ch). split; [reflexivity|].
    apply list_elem_of_fmap_2, Hch. }
  destruct (channel_step client fl _ Hr Hs Hsub) as (first & id & [= <-] & Hid & Hstep).
  rewrite int_str in Hid. injection Hid as <-.
  unfold fl'. rewrite Hstep. simpl.
  split; [reflexivity|]. split; [apply lookup_insert_eq|]. split; [reflexivity|].
  split; [|reflexivity].
  unfold stage. simpl.
  destruct (role_view fl); [|reflexivity]. destruct Hrv as (Hs' & _). congruence.
Qed.

(** X3.  In a flow whose channel prompt is live, selecting the option shown
    for an eligible channel stores that channel's identifier in the view and
    in the namespace, opens the form and leaves the flow awaiting the form:
    [int] reads back the identifier [str] wrote into the option. *)
Theorem channel_selection_round_trip (client : Client) (fl : Flow) (g : Guild.t)
    (ch : TextChannel.t) :
  reachable client fl ->
  Interaction.guild (ChannelSelectView.original_interaction (channel_view fl)) = Some g ->
  ChannelSelectView.stopped (channel_view fl) = false ->
  ch ∈ eligible_channels g ->
  let fl' := step client fl (channel_selected [str (TextChannel.id ch)]) in
  ChannelSelectView.selected_channel_id (channel_view fl') = Some (TextChannel.id ch)
  /\ namespace fl' !! "selected_channel_id" = Some (VInt (TextChannel.id ch))
  /\ log fl' = log fl ++ [response_send_modal MessageModal.__init__]
  /\ stage fl' = AwaitingForm.
Proof.
  intros Hr Hg Hs Hch fl'.
  destruct (channel_round_trip_step client fl g ch Hr Hg Hs Hch)
    as (H1 & H2 & H3 & H4 & _).
  auto.
Qed.

Lemma channel_selection_round_trip_witness :
  let client := Scenario.client None in
  let fl := Scenario.awaiting_form Scenario.guild in
  let fl' := step client fl (channel_selected ["2"]) in
  ChannelSelectView.selected_channel_id (channel_view fl) = Some 1
  /\ ChannelSelectView.selected_channel_id (channel_view fl') = Some 2
  /\ namespace fl' !! "selected_channel_id" = Some (VInt 2)
  /\ stage fl' = AwaitingForm.
Proof.
  intros client fl fl'.
  assert (Hr : reachable client fl).
  { apply reachable_run, started_scenario. reflexivity. }
  destruct (channel_selection_round_trip client fl Scenario.guild Scenario.logs Hr)
    as (H1 & H2 & _ & H4).
  - reflexivity.
  - reflexivity.
  - vm_compute. right. left.
  - split; [reflexivity|]. split; [exact H1|]. split; [exact H2|exact H4].
Defined.

(** X4.  When the form comes in, the role prompt is built for the channel
    selected last, which is one of the eligible channels, and from the roles
    of the guild; the channel prompt is stopped. *)
Theorem role_prompt_carries_selection (client : Client) (fl : Flow) (g : Guild.t)
    (msg_title body : string) :
  reachable client fl ->
  Interaction.guild (ChannelSelectView.original_interaction (channel_view fl)) = Some g ->
  stage fl = AwaitingForm ->
  msg_title <> "" -> body <> "" ->
  let fl' := step client fl (modal_submitted msg_title body) in
  exists ch,
    ch ∈ eligible_channels g
    /\ ChannelSelectView.selected_channel_id (channel_view fl) = Some (TextChannel.id ch)
    /\ role_view fl'
       = Some (RoleSelectView.__init__ (Guild.roles g)
                 (ChannelSelectView.original_interaction (channel_view fl))
                 (Some (TextChannel.id ch)))
    /\ ChannelSelectView.stopped (channel_view fl') = true.
Proof.
  intros Hr Hg Hst Ht Hb fl'.
  pose proof (tracked_guild client fl g Hr Hg) as HT.
  apply Inv_reachable in Hr.
  assert (Hm : is_Some (message_modal fl)).
  { unfold stage in Hst. destruct (role_view fl) as [v|].
    - destruct (RoleSelectView.stopped v); [destruct (existsb _ _)|]; discriminate.
    - destruct (message_modal fl); [eauto|].
      destruct (ChannelSelectView.stopped _); discriminate. }
  destruct (modal_step client fl g msg_title body Hr Hm Hg Ht Hb) as [_ Hstep].
  destruct HT as [_ _ Hpicked Hsel _ _ _ _].
  destruct (Hsel (or_introl Hm)) as [id Hid].
  destruct (Hpicked id Hid) as (ch & Hch & <-).
  exists ch. split; [exact Hch|]. split; [exact Hid|].
  unfold fl'. rewrite Hstep. simpl. rewrite Hid. auto.
Qed.

Lemma role_prompt_carries_selection_witness :
  let client := Scenario.client None in
  let fl := run client (Scenario.flow Scenario.guild)
              [channel_selected ["1"]; channel_selected ["2"]] in
  let fl' := step client fl (modal_submitted "Maintenance" "Service restarts at 5pm") in
  exists view,
    role_view fl' = Some view
    /\ RoleSelectView.selected_channel_id view = Some 2.
Proof.
  intros client fl fl'.
  assert (Hr : reachable client fl).
  { apply reachable_run, started_scenario. reflexivity. }
  destruct (role_prompt_carries_selection client fl Scenario.guild
              "Maintenance" "Service restarts at 5pm" Hr)
    as (ch & _ & Hid & Hview & _).
  - reflexivity.
  - vm_compute. reflexivity.
  - discriminate.
  - discriminate.
  - eexists. split; [exact Hview|].
    simpl. rewrite <- Hid. reflexivity.
Defined.

Lemma press_found_step (client : Client) (fl : Flow)
    (view : RoleSelectView.t) (channel : TextChannel.t) (ev : Event)
    (roles : list Object.t) :
  reachable client fl ->
  role_view fl = Some view ->
  RoleSelectView.stopped view = false ->
  ev = send_pressed /\ roles = RoleSelectView.selected_roles view
  \/ ev = skip_pressed /\ roles = [] ->
  get_channel client (RoleSelectView.selected_channel_id view)
    = Some (IsTextChannel channel) ->
  let fl' := step client fl ev in
  exists embed,
    let content := mention_prefix roles in
    let failure := send client channel content embed in
    log fl' = log fl ++
      [channel_send channel content embed failure;
       response_send_message
         match failure with
         | None => "Message sent to " +:+ TextChannel.mention channel +:+ "!"
         | Some Forbidden =>
             "Error: I don't have permission to send messages to that channel."
         | Some (OtherError e) => "An unexpected error occurred: " +:+ e
         end None true]
    /\ stage fl' = match failure with None => Completed | Some _ => Aborted end
    /\ role_view fl' = Some (RoleSelectView.stop view)
    /\ forall events, run client fl' events = fl'.
Proof.
  intros Hr Hv Hs Hev Hc fl'.
  apply Inv_reachable in Hr. pose proof Hr as (_ & _ & _ & _ & _ & Hrv).
  rewrite Hv in Hrv. destruct Hrv as (_ & _ & _ & _ & _ & Hd). specialize (Hd Hs).
  destruct (send_message_action client view (namespace fl) roles)
    as [[self calls] c] eqn:E.
  pose proof (press_step client fl view self ev roles calls c Hv Hs Hev E) as Hstep.
  apply send_message_action_cases in E.
  destruct E as [(_ & _ & _ & [Hn|Hn])|[(_ & _ & _ & Hnf)|
                 (channel' & t & b & Ht & Hb & Hc' & -> & _ & ->)]].
  - pose proof Hr as (_ & _ & _ & _ & _ & Hrv). rewrite Hv in Hrv.
    destruct Hrv as (_ & _ & [? ?] & _). congruence.
  - pose proof Hr as (_ & _ & _ & _ & _ & Hrv). rewrite Hv in Hrv.
    destruct Hrv as (_ & _ & _ & [? ?] & _). congruence.
  - exfalso. exact (Hnf channel Hc).
  - assert (channel' = channel) as -> by congruence.
    exists {| Embed.title := t; Embed.description := b; Embed.color := Color_blue |}.
    assert (Hst : stage fl'
                  = match send client channel (mention_prefix roles)
                            {| Embed.title := t; Embed.description := b;
                               Embed.color := Color_blue |} with
                    | None => Completed
                    | Some _ => Aborted
                    end).
    { unfold fl'. rewrite Hstep. unfold stage. simpl.
      rewrite existsb_is_delivery_app, Hd. simpl.
      destruct (send client channel _ _); reflexivity. }
    simpl. split; [unfold fl'; rewrite Hstep; reflexivity|].
    split; [exact Hst|]. split; [unfold fl'; rewrite Hstep; reflexivity|].
    intros events. apply terminal_run; [apply Inv_step, Hr|].
    fold fl'. rewrite Hst. unfold terminal.
    destruct (send client channel _ _); auto.
Qed.

(** X5.  When the role prompt is live and the channel is found, send and skip
    attempt one delivery, with the mention prefix of the roles they carry
    (the selection for send, none for skip), and reply according to the
    platform's answer: the channel's mention when the message was accepted,
    the permission error when it was forbidden, the text of the error
    otherwise.  The flow ends Completed exactly when the message was
    accepted, Aborted otherwise, the prompt is stopped, and no later event
    changes the flow. *)
Theorem delivery_outcome_decides_stage (client : Client) (fl : Flow)
    (view : RoleSelectView.t) (channel : TextChannel.t) (ev : Event)
    (roles : list Object.t) :
  reachable client fl ->
  role_view fl = Some view ->
  RoleSelectView.stopped view = false ->
  ev = send_pressed /\ roles = RoleSelectView.selected_roles view
  \/ ev = skip_pressed /\ roles = [] ->
  get_channel client (RoleSelectView.selected_channel_id view)
    = Some (IsTextChannel channel) ->
  let fl' := step client fl ev in
  exists embed,
    let content := mention_prefix roles in
    let failure := send client channel content embed in
    log fl' = log fl ++
      [channel_send channel content embed failure;
       response_send_message
         match failure with
         | None => "Message sent to " +:+ TextChannel.mention channel +:+ "!"
         | Some Forbidden =>
             "Error: I don't have permission to send messages to that channel."
         | Some (OtherError e) => "An unexpected error occurred: " +:+ e
         end None true]
    /\ stage fl' = match failure with None => Completed | Some _ => Aborted end
    /\ role_view fl' = Some (RoleSelectView.stop view)
    /\ forall events, run client fl' events = fl'.
Proof.
  intros Hr Hv Hs Hev Hc.
  exact (press_found_step client fl view channel ev roles Hr Hv Hs Hev Hc).
Qed.

Lemma delivery_outcome_decides_stage_witness :
  let fl := Scenario.awaiting_roles Scenario.guild in
  stage (step (Scenario.client None) fl skip_pressed) = Completed
  /\ stage (step (Scenario.client (Some (OtherError "timed out"))) fl skip_pressed)
     = Aborted
  /\ exists embed,
       log (step (Scenario.client (Some (OtherError "timed out"))) fl skip_pressed)
       = log fl ++
           [channel_send Scenario.general None embed (Some (OtherError "timed out"));
            response_send_message "An unexpected error occurred: timed out" None true].
Proof.
  intros fl.
  assert (Hr : forall answer, reachable (Scenario.client answer) fl).
  { intros answer.
    exists (Scenario.flow Scenario.guild),
      [channel_selected ["1"]; modal_submitted "Maintenance" "Service restarts at 5pm"].
    split; [apply started_scenario; reflexivity|reflexivity]. }
  destruct (delivery_outcome_decides_stage (Scenario.client None) fl
              (RoleSelectView.__init__ (Guild.roles Scenario.guild)
                 (Scenario.invocation Scenario.guild) (Some 1))
              Scenario.general skip_pressed [] (Hr None))
    as (embed1 & _ & Hst1 & _).
  { reflexivity. } { reflexivity. } { right. split; reflexivity. } { reflexivity. }
  destruct (delivery_outcome_decides_stage
              (Scenario.client (Some (OtherError "timed out"))) fl
              (RoleSelectView.__init__ (Guild.roles Scenario.guild)
                 (Scenario.invocation Scenario.guild) (Some 1))
              Scenario.general skip_pressed [] (Hr _))
    as (embed2 & Hlog2 & Hst2 & _).
  { reflexivity. } { reflexivity. } { right. split; reflexivity. } { reflexivity. }
  split; [exact Hst1|]. split; [exact Hst2|]. exists embed2. exact Hlog2.
Defined.

(** X7.  Every reply and every follow-up of a flow is sent to the invoking
    user alone ([ephemeral=True]): the one thing a flow makes public is the
    message it sends to the channel. *)
Theorem replies_are_private (client : Client) (fl : Flow) (c : Call) :
  reachable client fl ->
  c ∈ log fl ->
  match c with
  | response_send_message _ _ ephemeral | followup_send _ _ ephemeral => ephemeral = true
  | _ => True
  end.
Proof.
  intros Hr Hc. destruct (Tracks_reachable client fl Hr) as [g HT].
  destruct HT as [_ _ _ _ _ Hpriv _ _].
  rewrite Forall_forall in Hpriv. exact (Hpriv c Hc).
Qed.

Lemma replies_are_private_witness :
  let client := Scenario.client_without_channels in
  let fl := run client (Scenario.flow Scenario.guild)
              [channel_selected ["1"];
               modal_submitted "Maintenance" "Service restarts at 5pm";
               send_pressed] in
  let c := response_send_message "Error: Could not find the selected channel." None true in
  c ∈ log fl /\ true = true.
Proof.
  intros client fl c.
  assert (Hin : c ∈ log fl).
  { vm_compute. do 4 right. left. }
  split; [exact Hin|].
  apply (replies_are_private client fl c); [|exact Hin].
  apply reachable_run, started_scenario. reflexivity.
Defined.

Lemma handle_step (client : Client) (fl : Flow) (ev : Event) :
  let_through fl ev -> handle client fl ev = step client fl ev.
Proof.
  destruct ev as [values|msg_title body|values| |]; simpl; intros Hlet; try reflexivity.
  - destruct (ChannelSelectView.stopped (channel_view fl)); [reflexivity|].
    destruct (decide _) as [_|Hno]; [reflexivity|contradiction].
  - destruct (message_modal fl) as [m|]; [|reflexivity].
    destruct (decide _) as [_|Hno]; [reflexivity|].
    exfalso. apply Hno, Hlet. reflexivity.
  - destruct (role_view fl) as [view|]; [|reflexivity].
    destruct (RoleSelectView.stopped view); [reflexivity|].
    destruct (decide _) as [_|Hno]; [reflexivity|].
    exfalso. apply Hno, Hlet. reflexivity.
Qed.

Lemma handle_run (client : Client) (events : list Event) (fl : Flow) :
  all_let_through client fl events ->
  foldl (handle client) fl events = run client fl events.
Proof.
  revert fl. induction events as [|ev events IH]; intros fl Hall; [reflexivity|].
  destruct Hall as [Hlet Hall]. simpl. rewrite (IH _ Hall).
  rewrite (handle_step client fl ev Hlet). reflexivity.
Qed.

Lemma Tracks_handled (client : Client) (fl0 : Flow) (g : Guild.t) (events : list Event) :
  started fl0 ->
  Interaction.guild (ChannelSelectView.original_interaction (channel_view fl0)) = Some g ->
  all_let_through client fl0 events ->
  Tracks client g (foldl (handle client) fl0 events).
Proof.
  intros H0 Hg Hall. rewrite (handle_run client events fl0 Hall).
  destruct (Tracks_started client fl0 H0) as [g' HT].
  assert (g' = g) as <-.
  { destruct HT as [Hg' _ _ _ _ _ _ _]. congruence. }
  apply Tracks_run; [apply Inv_started, H0|exact HT].
Qed.

(** X8.  Take a flow the command created and let the handlers run on events
    the platform lets through (values among the options shown).  Whatever the
    flow sends then goes to a channel the client finds under the identifier
    of a text channel of the guild in which the bot may send: one of the
    channels the command offered.  The handlers do not check this
    themselves: the condition on the events is needed. *)
Theorem sent_only_to_offered_channel (client : Client) (fl0 : Flow) (g : Guild.t)
    (events : list Event) (channel : TextChannel.t) (content : option string)
    (embed : Embed.t) (failure : option SendError) :
  started fl0 ->
  Interaction.guild (ChannelSelectView.original_interaction (channel_view fl0)) = Some g ->
  all_let_through client fl0 events ->
  channel_send channel content embed failure ∈ log (foldl (handle client) fl0 events) ->
  exists ch,
    ch ∈ Guild.text_channels g
    /\ Permissions.send_messages (TextChannel.permissions_for ch (Guild.me g)) = true
    /\ get_channel client (Some (TextChannel.id ch)) = Some (IsTextChannel channel).
Proof.
  intros H0 Hg Hall Hc.
  destruct (Tracks_handled client fl0 g events H0 Hg Hall) as [_ _ _ _ _ _ Htarget _].
  rewrite Forall_forall in Htarget. destruct (Htarget _ Hc) as (ch & Hch & Hfound).
  apply list_elem_of_filter in Hch as [Hsend Hin]. eauto.
Qed.

(** X9.  Take a flow the command created and let the handlers run on events
    the platform lets through (values among the options shown).  The content
    of whatever the flow sends is then the mention prefix of roles of the
    guild whose name is not [@everyone]: the flow mentions no role the role
    select did not list.  The handlers do not check this themselves: on a
    value outside the options line 78 records the role all the same (see
    [unlisted_value_is_mentioned]). *)
Theorem mentions_only_listed_roles (client : Client) (fl0 : Flow) (g : Guild.t)
    (events : list Event) (channel : TextChannel.t) (content : option string)
    (embed : Embed.t) (failure : option SendError) :
  started fl0 ->
  Interaction.guild (ChannelSelectView.original_interaction (channel_view fl0)) = Some g ->
  all_let_through client fl0 events ->
  channel_send channel content embed failure ∈ log (foldl (handle client) fl0 events) ->
  exists roles,
    content = mention_prefix roles
    /\ forall r, r ∈ roles ->
         exists role,
           role ∈ Guild.roles g /\ Role.name role <> "@everyone"
           /\ Role.id role = Object.id r.
Proof.
  intros H0 Hg Hall Hc.
  destruct (Tracks_handled client fl0 g events H0 Hg Hall) as [_ _ _ _ _ _ _ Hment].
  rewrite Forall_forall in Hment. destruct (Hment _ Hc) as (roles & Hcontent & Hroles).
  exists roles. split; [exact Hcontent|]. intros r Hr'.
  destruct (Hroles r Hr') as (role & Hrole & Hid).
  apply list_elem_of_filter in Hrole as [Hname Hin]. eauto.
Qed.

(** Without the platform's check the handlers take any value: the value "999"
    names no role of the guild, yet the role is recorded and mentioned. *)
Example unlisted_value_is_mentioned :
  let client := Scenario.client None in
  let fl := foldl (handle client) (Scenario.flow Scenario.guild)
              [channel_selected ["1"];
               modal_submitted "Maintenance" "Service restarts at 5pm";
               roles_selected ["999"]; send_pressed] in
  channel_send Scenario.general (Some "<@&999>")
    {| Embed.title := VStr "Maintenance";
       Embed.description := VStr "Service restarts at 5pm";
       Embed.color := Color_blue |} None ∈ log fl.
Proof. vm_compute. do 4 right. left. Qed.

Lemma scenario_events_let_through (events : list Event) :
  events = [send_pressed] \/ events = [roles_selected ["11"]; send_pressed] ->
  all_let_through (Scenario.client None) (Scenario.flow Scenario.guild)
    ([channel_selected ["2"];
      modal_submitted "Maintenance" "Service restarts at 5pm"] ++ events).
Proof.
  intros Hev. split.
  { split; [apply NoDup_singleton|]. split; [simpl; lia|].
    intros x Hx. apply list_elem_of_singleton in Hx as ->. vm_compute. right. left. }
  split.
  { intros m [= <-]. split; intros _; discriminate. }
  destruct Hev as [-> | ->]; simpl; [tauto|].
  split; [|tauto].
  intros view [= <-]. split; [apply NoDup_singleton|]. split; [vm_compute; lia|].
  intros x Hx. exact Hx.
Qed.

Lemma sent_only_to_offered_channel_witness :
  let client := Scenario.client None in
  let fl := foldl (handle client) (Scenario.flow Scenario.guild)
              [channel_selected ["2"];
               modal_submitted "Maintenance" "Service restarts at 5pm";
               send_pressed] in
  let embed := {| Embed.title := VStr "Maintenance";
                  Embed.description := VStr "Service restarts at 5pm";
                  Embed.color := Color_blue |} in
  channel_send Scenario.logs None embed None ∈ log fl
  /\ exists ch,
       ch ∈ Guild.text_channels Scenario.guild
       /\ Permissions.send_messages
            (TextChannel.permissions_for ch (Guild.me Scenario.guild)) = true
       /\ get_channel client (Some (TextChannel.id ch))
          = Some (IsTextChannel Scenario.logs).
Proof.
  intros client fl embed.
  assert (Hin : channel_send Scenario.logs None embed None ∈ log fl).
  { vm_compute. do 4 right. left. }
  split; [exact Hin|].
  apply (sent_only_to_offered_channel client (Scenario.flow Scenario.guild)
           Scenario.guild
           [channel_selected ["2"];
            modal_submitted "Maintenance" "Service restarts at 5pm"; send_pressed]
           Scenario.logs None embed None).
  - apply started_scenario. reflexivity.
  - reflexivity.
  - apply (scenario_events_let_through [send_pressed]). left. reflexivity.
  - exact Hin.
Defined.

Lemma mentions_only_listed_roles_witness :
  let client := Scenario.client None in
  let fl := foldl (handle client) (Scenario.flow Scenario.guild)
              [channel_selected ["2"];
               modal_submitted "Maintenance" "Service restarts at 5pm";
               roles_selected ["11"]; send_pressed] in
  let embed := {| Embed.title := VStr "Maintenance";
                  Embed.description := VStr "Service restarts at 5pm";
                  Embed.color := Color_blue |} in
  channel_send Scenario.logs (Some "<@&11>") embed None ∈ log fl
  /\ exists roles,
       Some "<@&11>" = mention_prefix roles
       /\ forall r, r ∈ roles ->
            exists role,
              role ∈ Guild.roles Scenario.guild /\ Role.name role <> "@everyone"
              /\ Role.id role = Object.id r.
Proof.
  intros client fl embed.
  assert (Hin : channel_send Scenario.logs (Some "<@&11>") embed None ∈ log fl).
  { vm_compute. do 4 right. left. }
  split; [exact Hin|].
  apply (mentions_only_listed_roles client (Scenario.flow Scenario.guild)
           Scenario.guild
           [channel_selected ["2"];
            modal_submitted "Maintenance" "Service restarts at 5pm";
            roles_selected ["11"]; send_pressed]
           Scenario.logs (Some "<@&11>") embed None).
  - apply started_scenario. reflexivity.
  - reflexivity.
  - apply (scenario_events_let_through [roles_selected ["11"]; send_pressed]).
    right. reflexivity.
  - exact Hin.
Defined.

(** X11.  On the channel prompt of a flow the command created, every
    selection the platform lets through opens the form: the handler finds a
    first value, the value is not the placeholder "no_channels", and [int]
    reads it, so it raises neither [IndexError] nor [ValueError] and never
    takes the branch that stops the view. *)
Theorem channel_selection_opens_form (client : Client) (fl : Flow)
    (values : list string) :
  reachable client fl ->
  submittable (ChannelSelectView.channel_select (channel_view fl)) values ->
  exists self namespace',
    channel_select_callback (ChannelSelectView.set_values values (channel_view fl))
      (namespace fl)
    = (self, namespace', [response_send_modal MessageModal.__init__],
       Waiting MessageModal.__init__)
    /\ is_Some (ChannelSelectView.selected_channel_id self)
    /\ ChannelSelectView.stopped self = ChannelSelectView.stopped (channel_view fl).
Proof.
  intros Hr Hsub. apply Inv_reachable in Hr.
  destruct (channel_selection fl values Hr Hsub) as (first & id & -> & Hid & Hne).
  rewrite (channel_select_callback_selects _ _ _ _ Hid Hne).
  eexists _, _. split; [reflexivity|]. simpl. eauto.
Qed.

Lemma channel_selection_opens_form_witness :
  let fl := Scenario.flow Scenario.guild in
  exists self namespace',
    channel_select_callback (ChannelSelectView.set_values ["2"] (channel_view fl))
      (namespace fl)
    = (self, namespace', [response_send_modal MessageModal.__init__],
       Waiting MessageModal.__init__)
    /\ is_Some (ChannelSelectView.selected_channel_id self)
    /\ ChannelSelectView.stopped self = ChannelSelectView.stopped (channel_view fl).
Proof.
  intros fl.
  apply (channel_selection_opens_form (Scenario.client None) fl ["2"]).
  - apply (reachable_run _ _ []), started_scenario. reflexivity.
  - split; [apply NoDup_singleton|]. split; [simpl; lia|].
    intros x Hx. apply list_elem_of_singleton in Hx as ->. vm_compute. right. left.
Defined.

(** X12.  On the role prompt of a flow the command created, no selection the
    platform lets through raises [ValueError]: every value of the select is
    the placeholder "no_roles" or the [str] of a role's identifier. *)
Theorem role_selection_never_value_error (client : Client) (fl : Flow)
    (view : RoleSelectView.t) (values : list string) :
  reachable client fl ->
  role_view fl = Some view ->
  submittable (RoleSelectView.role_select view) values ->
  (role_select_callback client (RoleSelectView.set_values values view)).2
  <> Raised ValueError.
Proof.
  intros Hr Hv Hsub.
  destruct (Tracks_reachable client fl Hr) as [g HT].
  destruct HT as [_ _ _ _ Hrole _ _ _].
  destruct (Hrole view Hv) as (Hopt & _).
  destruct (role_select_callback client (RoleSelectView.set_values values view))
    as [[self calls] c] eqn:E.
  apply role_select_callback_cases in E. simpl in *.
  destruct E as [(_ & _ & _ & Hno & Hnone)|(rs & _ & _ & Hc & _)]; [|exact Hc].
  exfalso. apply mapM_None_1, Exists_exists in Hnone as (v & Hin & Hint).
  destruct Hsub as (_ & _ & Hsub). pose proof (Hsub v Hin) as Hv'.
  rewrite Hopt in Hv'.
  destruct (role_option <$> listed_roles g) as [|o os] eqn:Eo.
  - apply list_elem_of_fmap in Hv' as (o & -> & Ho).
    apply list_elem_of_singleton in Ho as ->. exact (Hno Hin).
  - rewrite <- Eo in Hv'. apply list_elem_of_fmap in Hv' as (o' & -> & Ho).
    apply list_elem_of_fmap in Ho as (role & -> & _).
    simpl in Hint. rewrite int_str in Hint. discriminate.
Qed.

Lemma role_selection_never_value_error_witness :
  let client := Scenario.client None in
  let fl := Scenario.awaiting_roles Scenario.guild in
  exists view,
    role_view fl = Some view
    /\ (role_select_callback client (RoleSelectView.set_values ["11"] view)).2
       <> Raised ValueError.
Proof.
  intros client fl. eexists. split; [reflexivity|].
  apply (role_selection_never_value_error client fl).
  - apply reachable_run, started_scenario. reflexivity.
  - reflexivity.
  - split; [apply NoDup_singleton|]. split; [simpl; lia|].
    intros x Hx. exact Hx.
Defined.

(** X15.  A channel view built from no channel offers the one placeholder
    "No text channels found"; selecting it stops the view with the reply that
    no channel is available: no form is opened, no channel is recorded and
    the namespace is left as it was. *)
Theorem no_channels_placeholder (original_interaction : Interaction.t) (ns : Namespace) :
  let view := ChannelSelectView.__init__ [] original_interaction in
  Select.options (ChannelSelectView.channel_select view)
  = [ChannelSelectView.no_channels_option]
  /\ submittable (ChannelSelectView.channel_select view) ["no_channels"]
  /\ channel_select_callback (ChannelSelectView.set_values ["no_channels"] view) ns
     = (ChannelSelectView.stop (ChannelSelectView.set_values ["no_channels"] view), ns,
        [response_send_message "No text channels available to send a message to."
           None true],
        Over Returned)
  /\ ChannelSelectView.selected_channel_id
       (ChannelSelectView.stop (ChannelSelectView.set_values ["no_channels"] view)) = None.
Proof.
  simpl. split; [reflexivity|]. split.
  { split; [apply NoDup_singleton|]. split; [simpl; lia|]. intros x Hx. exact Hx. }
  split; reflexivity.
Qed.

(** X16.  Both selects key their options by [str] of the identifier, so
    channels, or roles, with pairwise different identifiers get pairwise
    different option values, and the role select lets the user pick as many
    values as it lists roles. *)
Theorem option_values_are_distinct (text_channels : list TextChannel.t)
    (guild_roles : list Role.t) (interaction : Interaction.t) (id : option Z) :
  NoDup (TextChannel.id <$> text_channels) ->
  NoDup (Role.id <$> guild_roles) ->
  let channel_select :=
    ChannelSelectView.channel_select
      (ChannelSelectView.__init__ text_channels interaction) in
  let role_select :=
    RoleSelectView.role_select (RoleSelectView.__init__ guild_roles interaction id) in
  NoDup (SelectOption.value <$> Select.options channel_select)
  /\ NoDup (SelectOption.value <$> Select.options role_select)
  /\ Select.max_values role_select = length (Select.options role_select).
Proof.
  intros Hch Hroles. simpl.
  assert (Hinj : Inj (=) (=) str) by (intros a b; apply str_inj).
  split; [|split].
  - destruct text_channels as [|ch chs]; [apply NoDup_singleton|].
    change (NoDup (SelectOption.value <$> (channel_option <$> ch :: chs))).
    rewrite <- list_fmap_compose.
    change (NoDup ((str ∘ TextChannel.id) <$> ch :: chs)).
    rewrite list_fmap_compose. apply (NoDup_fmap_2 str), Hch.
  - assert (Hsub : NoDup (Role.id <$> filter (fun role => Role.name role <> "@everyone")
                                          guild_roles)).
    { apply (sublist_NoDup _ (Role.id <$> guild_roles)); [exact Hroles|].
      apply fmap_sublist, sublist_filter. }
    destruct (filter _ guild_roles) as [|role roles]; [apply NoDup_singleton|].
    change (NoDup (SelectOption.value <$> (role_option <$> role :: roles))).
    rewrite <- list_fmap_compose.
    change (NoDup ((str ∘ Role.id) <$> role :: roles)).
    rewrite list_fmap_compose. apply (NoDup_fmap_2 str), Hsub.
  - destruct (filter _ guild_roles) as [|role roles]; [reflexivity|].
    simpl. destruct (decide _) as [_|Hno]; [reflexivity|].
    exfalso. apply Hno, str_not_no_roles.
Qed.

Lemma option_values_are_distinct_witness :
  let role_select :=
    RoleSelectView.role_select
      (RoleSelectView.__init__ (Guild.roles Scenario.guild)
         (Scenario.invocation Scenario.guild) (Some 1)) in
  NoDup (SelectOption.value <$> Select.options role_select)
  /\ Select.max_values role_select = length (Select.options role_select).
Proof.
  intros role_select.
  destruct (option_values_are_distinct (Guild.text_channels Scenario.guild)
              (Guild.roles Scenario.guild) (Scenario.invocation Scenario.guild) (Some 1))
    as (_ & H2 & H3).
  - simpl. constructor; [|apply NoDup_singleton].
    intros H. apply list_elem_of_singleton in H. discriminate.
  - simpl. constructor; [|apply NoDup_singleton].
    intros H. apply list_elem_of_singleton in H. discriminate.
  - split; [exact H2|exact H3].
Defined.
